(** * Quiz generator: sentence segmentation, distractor synthesis,
      question assembly and export

    A shallow embedding of [streamlit_app.py].  Python [str] values are
    modelled as [string]; a character is a code point below 256, so the
    character classes below follow Python's [str.isspace] and [str.lower]
    on that range.  Python [int] is [Z].  A function that can raise returns
    a [result]; the ambient random generator used by [random.choice] is an
    explicit [RandomState] threaded through the generator. *)

From Stdlib Require Import ZArith Lia List Bool Ascii String.
From Stdlib Require Import DecimalString DecimalZ DecimalPos DecimalFacts.
From Stdlib Require QArith.
From stdpp Require Import gmap strings list.

Open Scope string_scope.
Open Scope list_scope.

(** ** Python string primitives *)

Module PyStr.

(** [str.isspace] on one character: TAB..CR, FS..US, space, NEL, NBSP. *)
Definition isspace (c : ascii) : bool :=
  let n := nat_of_ascii c in
  ((9 <=? n)%nat && (n <=? 13)%nat)
  || ((28 <=? n)%nat && (n <=? 32)%nat)
  || (n =? 133)%nat || (n =? 160)%nat.

(** [str.lower] on one character: A..Z and the Latin-1 capitals
    (except the multiplication sign) move up by 32. *)
Definition lower_char (c : ascii) : ascii :=
  let n := nat_of_ascii c in
  if ((65 <=? n)%nat && (n <=? 90)%nat)
     || ((192 <=? n)%nat && (n <=? 222)%nat && negb (n =? 215)%nat)
  then ascii_of_nat (n + 32) else c.

Fixpoint lower (s : string) : string :=
  match s with
  | EmptyString => EmptyString
  | String c r => String (lower_char c) (lower r)
  end.

Definition is_empty (s : string) : bool :=
  match s with EmptyString => true | String _ _ => false end.

(** Truthiness of a string in a condition ([if s]). *)
Definition truthy (s : string) : bool := negb (is_empty s).

(** Every character is whitespace (true of the empty string). *)
Fixpoint is_blank (s : string) : bool :=
  match s with
  | EmptyString => true
  | String c r => isspace c && is_blank r
  end.

Fixpoint contains (x : ascii) (s : string) : bool :=
  match s with
  | EmptyString => false
  | String c r => Ascii.eqb c x || contains x r
  end.

Fixpoint lstrip (s : string) : string :=
  match s with
  | EmptyString => EmptyString
  | String c r => if isspace c then lstrip r else s
  end.

Fixpoint rstrip (s : string) : string :=
  match s with
  | EmptyString => EmptyString
  | String c r =>
      match rstrip r with
      | EmptyString => if isspace c then EmptyString else String c EmptyString
      | r' => String c r'
      end
  end.

(** [s.strip()] *)
Definition strip (s : string) : string := rstrip (lstrip s).

(** [s.split(sep)] for a one-character separator: the pieces between
    the separators, empty pieces kept. *)
Fixpoint split_go (sep : ascii) (s : string) : string * list string :=
  match s with
  | EmptyString => (EmptyString, [])
  | String c r =>
      let '(h, t) := split_go sep r in
      if Ascii.eqb c sep then (EmptyString, h :: t) else (String c h, t)
  end.

Definition split (sep : ascii) (s : string) : list string :=
  let '(h, t) := split_go sep s in h :: t.

(** [s.split()]: the maximal runs of non-whitespace characters. *)
Fixpoint words_go (s : string) : string * list string :=
  match s with
  | EmptyString => (EmptyString, [])
  | String c r =>
      let '(h, t) := words_go r in
      if isspace c
      then (EmptyString, if is_empty h then t else h :: t)
      else (String c h, t)
  end.

Definition split_ws (s : string) : list string :=
  let '(h, t) := words_go s in if is_empty h then t else h :: t.

(** [sep.join(l)] *)
Definition join (sep : string) (l : list string) : string :=
  String.concat sep l.

(** [str(n)] for an integer. *)
Definition str_of_int (n : Z) : string :=
  NilZero.string_of_int (Z.to_int n).

(** [l[:n]] with Python's treatment of a negative bound. *)
Definition slice_to {A} (l : list A) (n : Z) : list A :=
  if (0 <=? n)%Z then firstn (Z.to_nat n) l
  else firstn (length l - Z.to_nat (- n)) l.

End PyStr.

(** ** Exceptions, results and the random source *)

Module Python.

Inductive exn : Type := IndexError | KeyError.

Inductive result (A : Type) : Type :=
| Return (a : A)
| Raise (e : exn).
Arguments Return {A} a.
Arguments Raise {A} e.

Definition rbind {A B} (r : result A) (k : A -> result B) : result B :=
  match r with
  | Return a => k a
  | Raise e => Raise e
  end.

(** The module-level generator of [random]: an infinite sequence of raw
    draws and the number of draws consumed so far. *)
Record RandomState : Type := mkRandomState { draws : nat -> nat; pos : nat }.

(** A computation that may read the random source and may raise. *)
Definition M (A : Type) : Type := RandomState -> result (A * RandomState).

Definition ret {A} (a : A) : M A := fun st => Return (a, st).

Definition bind {A B} (m : M A) (k : A -> M B) : M B :=
  fun st =>
    match m st with
    | Return (a, st') => k a st'
    | Raise e => Raise e
    end.

Definition lift {A} (r : result A) : M A :=
  fun st =>
    match r with
    | Return a => Return (a, st)
    | Raise e => Raise e
    end.

(** [random.choice(seq)]: [IndexError] on an empty sequence, otherwise the
    element at the next draw reduced below [len(seq)]. *)
Definition choice {A} (seq : list A) : M A :=
  fun st =>
    match seq with
    | [] => Raise IndexError
    | x :: _ =>
        Return (nth (draws st (pos st) mod length seq) seq x,
                mkRandomState (draws st) (S (pos st)))
    end.

(** [d[k]] on a dict. *)
Definition dict_getitem {V} (d : gmap string V) (k : string) : result V :=
  match d !! k with
  | Some v => Return v
  | None => Raise KeyError
  end.

(** [l[i]] on a list, a negative index counting from the end. *)
Definition list_getitem {A} (l : list A) (i : Z) : result A :=
  let j := if (i <? 0)%Z then (i + Z.of_nat (length l))%Z else i in
  if (j <? 0)%Z then Raise IndexError
  else match l !! Z.to_nat j with
       | Some x => Return x
       | None => Raise IndexError
       end.

(** [for _ in range(n): acc = body(acc)] *)
Fixpoint for_range {S} (n : nat) (body : S -> M S) (acc : S) : M S :=
  match n with
  | O => ret acc
  | Datatypes.S n' => bind (body acc) (for_range n' body)
  end.

End Python.

Import Python.

Notation "x <- m ;; k" := (bind m (fun x => k))
  (at level 100, m at next level, right associativity, only parsing).

(** ** Integer arithmetic *)

Module PyNum.

(** The outcome of [a / b] on integers: the exact quotient, to which the
    float that Python returns is the nearest, or [ZeroDivisionError]. *)
Inductive quotient : Type :=
| Quotient (q : QArith_base.Q)
| ZeroDivisionError.

Definition truediv (a b : Z) : quotient :=
  match b with
  | Z0 => ZeroDivisionError
  | Zpos p => Quotient (QArith_base.Qmake a p)
  | Zneg p => Quotient (QArith_base.Qmake (- a) p)
  end.

(** [sum(l)] *)
Definition sum (l : list Z) : Z := fold_left Z.add l 0%Z.

(** [len(l)] *)
Definition len {A} (l : list A) : Z := Z.of_nat (length l).

End PyNum.

(** ** JSON-serialisable Python values and [json.dumps] *)

Set Warnings "-register-all".

Module Json.

Definition dquote : ascii := "034"%char.
Definition backslash : ascii := "092"%char.

(** Dictionary keys: [str] or [int]. *)
Inductive pykey : Type := KStr (s : string) | KInt (n : Z).

Inductive pyval : Type :=
| PNone
| PInt (n : Z)
| PStr (s : string)
| PList (l : list pyval)
| PDict (d : list (pykey * pyval)).

Definition hex_digit (n : nat) : ascii :=
  match String.get n "0123456789abcdef" with
  | Some c => c
  | None => "0"%char
  end.

(** One character of [py_encode_basestring_ascii]: printable ASCII other
    than the quote and the backslash stands for itself, the rest is
    escaped. *)
Definition escape_char (c : ascii) : string :=
  let n := nat_of_ascii c in
  if (n =? 34)%nat then String backslash (String dquote EmptyString)
  else if (n =? 92)%nat then String backslash (String backslash EmptyString)
  else if (n =? 10)%nat then String backslash "n"
  else if (n =? 13)%nat then String backslash "r"
  else if (n =? 9)%nat then String backslash "t"
  else if (n =? 8)%nat then String backslash "b"
  else if (n =? 12)%nat then String backslash "f"
  else if (32 <=? n)%nat && (n <=? 126)%nat then String c EmptyString
  else String backslash
         ("u00" +:+ String (hex_digit (n / 16)) (String (hex_digit (n mod 16)) EmptyString)).

Fixpoint escape (s : string) : string :=
  match s with
  | EmptyString => EmptyString
  | String c r => escape_char c +:+ escape r
  end.

Definition dumps_str (s : string) : string :=
  String dquote (escape s +:+ String dquote EmptyString).

(** A key is written as a string; an [int] key through [str]. *)
Definition dumps_key (k : pykey) : string :=
  match k with
  | KStr s => dumps_str s
  | KInt n => dumps_str (PyStr.str_of_int n)
  end.

(** [json.dumps(v)] with the default separators. *)
Fixpoint dumps (v : pyval) : string :=
  match v with
  | PNone => "null"
  | PInt n => PyStr.str_of_int n
  | PStr s => dumps_str s
  | PList l => "[" +:+ PyStr.join ", " (map dumps l) +:+ "]"
  | PDict d =>
      "{" +:+ PyStr.join ", "
                (map (fun kv => dumps_key (fst kv) +:+ ": " +:+ dumps (snd kv)) d)
          +:+ "}"
  end.

End Json.

Import Json.

(** ** Data model *)

(** The dataclass [Question].  [metadata] is [None] or a dictionary, kept
    in insertion order, with [str] or [int] keys and values made of
    [None], integers, strings, lists and such dictionaries. *)
Record Question : Type := mkQuestion {
  text : string;
  type : string;
  answers : list string;
  correct_answers : list Z;
  distractors : list string;
  metadata : option (list (pykey * pyval))
}.

(** [q.__dict__]: the fields in declaration order. *)
Definition to_dict (q : Question) : pyval :=
  PDict [ (KStr "text", PStr (text q));
          (KStr "type", PStr (type q));
          (KStr "answers", PList (map PStr (answers q)));
          (KStr "correct_answers", PList (map PInt (correct_answers q)));
          (KStr "distractors", PList (map PStr (distractors q)));
          (KStr "metadata",
            match metadata q with None => PNone | Some d => PDict d end) ].

(** ** Segmenter *)

Module TextProcessor.

Definition extract_sentences (text : string) : list string :=
  map PyStr.strip
      (List.filter (fun s => PyStr.truthy (PyStr.strip s)) (PyStr.split "." text)).

(** The average number of words of a sentence. *)
Definition analyze_complexity (text : string) : PyNum.quotient :=
  let sentences := TextProcessor.extract_sentences text in
  let avg_length :=
    PyNum.truediv (PyNum.sum (map (fun s => PyNum.len (PyStr.split_ws s)) sentences))
                  (PyNum.len sentences) in
  avg_length.

End TextProcessor.

(** ** Distractor synthesis *)

Module DistractorGenerator.

Definition generate_short_answer_distractors
    (correct_answer : string) (num_distractors : Z) : list string :=
  let words := PyStr.split_ws (PyStr.lower correct_answer) in
  let distractors :=
    Nat.iter (Z.to_nat num_distractors)
             (fun acc => acc ++ [PyStr.join " " (rev words)]) [] in
  PyStr.slice_to distractors num_distractors.

Definition generate_multiple_choice_distractors
    (correct_answer : string) (num_options : Z) : list string :=
  let distractors :=
    [ correct_answer +:+ " but faster";
      "Not " +:+ correct_answer;
      correct_answer +:+ " and slower" ] in
  [correct_answer] ++ PyStr.slice_to distractors (num_options - 1).

End DistractorGenerator.

(** ** Question assembly *)

Module QuizGenerator.

Definition short_text_question (sentence : string) : Question :=
  {| text := "What is the main idea of: '" +:+ sentence +:+ "'?";
     type := "short_text";
     answers := [];
     correct_answers := [0%Z];
     distractors :=
       DistractorGenerator.generate_short_answer_distractors sentence 3;
     metadata := Some [(KStr "source", PStr "document")] |}.

Definition multiple_choice_question (sentence : string) : Question :=
  {| text := "What best describes: '" +:+ sentence +:+ "'?";
     type := "multiple_choice";
     answers := ["Accurate"; "Partially Accurate"; "Incorrect"];
     correct_answers := [0%Z];
     distractors :=
       DistractorGenerator.generate_multiple_choice_distractors "Accurate" 4;
     metadata := Some [(KStr "source", PStr "document")] |}.

Definition generate_quiz (file_data : string) (question_counts : gmap string Z)
  : M (list Question) :=
  let sentences := TextProcessor.extract_sentences file_data in
  n_short <- lift (dict_getitem question_counts "short_text") ;;
  questions <-
    for_range (Z.to_nat n_short)
      (fun questions =>
         sentence <- choice sentences ;;
         ret (questions ++ [short_text_question sentence]))
      [] ;;
  n_mc <- lift (dict_getitem question_counts "multiple_choice") ;;
  questions <-
    for_range (Z.to_nat n_mc)
      (fun questions =>
         sentence <- choice sentences ;;
         ret (questions ++ [multiple_choice_question sentence]))
      questions ;;
  ret questions.

End QuizGenerator.

(** ** Export *)

Module StreamlitQuizApp.

Definition nl : string := String "010"%char EmptyString.

(** The body of the [gift] loop for the question at index [i]. *)
Definition gift_step (i : Z) (q : Question) (gift_format : list string)
  : result (list string) :=
  if String.eqb (type q) "multiple_choice" then
    let gift_format :=
      gift_format ++ ["::Q" +:+ PyStr.str_of_int (i + 1) +:+ "::" +:+ text q +:+ "{"] in
    rbind (list_getitem (correct_answers q) 0) (fun c =>
    let gift_format := gift_format ++ ["$A=" +:+ PyStr.str_of_int (c + 1)] in
    let gift_format := gift_format ++ (answers q ++ distractors q) in
    Return (gift_format ++ ["}"]))
  else Return gift_format.

(** [for i, q in enumerate(questions)] from index [i] on. *)
Fixpoint gift_loop (i : Z) (questions : list Question) (gift_format : list string)
  : result (list string) :=
  match questions with
  | [] => Return gift_format
  | q :: rest => rbind (gift_step i q gift_format) (gift_loop (i + 1) rest)
  end.

(** The return value is [None] when no branch is taken. *)
Definition export_questions (questions : list Question) (format_type : string)
  : result (option string) :=
  if String.eqb format_type "json" then
    Return (Some (dumps (PList (map to_dict questions))))
  else if String.eqb format_type "txt" then
    Return (Some (PyStr.join (nl +:+ nl)
                    (map (fun q => text q +:+ nl +:+ "Answers: "
                                     +:+ PyStr.join ", " (answers q))
                         questions)))
  else if String.eqb format_type "gift" then
    rbind (gift_loop 0 questions [])
          (fun gift_format => Return (Some (PyStr.join nl gift_format)))
  else Return None.

(** The dictionary that [setup_ui] builds from the three number inputs. *)
Definition question_counts (short_text_count mc_count ordering_count : Z)
  : gmap string Z :=
  <["short_text" := short_text_count]>
    (<["multiple_choice" := mc_count]> (<["ordering" := ordering_count]> ∅)).


End StreamlitQuizApp.

(** ** Re-parsing the structured-data export *)

Module JsonLoads.

(** The repository only writes JSON.  The reader below is the counterpart
    of [json.loads] for the text that [json.dumps] writes with its default
    separators, on values made of [None], [int], [str], lists and
    dictionaries. *)

Definition digit_of (c : ascii) : option (Decimal.uint -> Decimal.uint) :=
  match nat_of_ascii c with
  | 48 => Some Decimal.D0 | 49 => Some Decimal.D1 | 50 => Some Decimal.D2
  | 51 => Some Decimal.D3 | 52 => Some Decimal.D4 | 53 => Some Decimal.D5
  | 54 => Some Decimal.D6 | 55 => Some Decimal.D7 | 56 => Some Decimal.D8
  | 57 => Some Decimal.D9 | _ => None
  end%nat.

Definition is_digit (c : ascii) : bool :=
  match digit_of c with Some _ => true | None => false end.

(** The longest prefix of decimal digits and what follows it. *)
Fixpoint scan_digits (s : string) : Decimal.uint * string :=
  match s with
  | EmptyString => (Decimal.Nil, EmptyString)
  | String c r =>
      match digit_of c with
      | Some d => let '(u, r') := scan_digits r in (d u, r')
      | None => (Decimal.Nil, s)
      end
  end.

Definition scan_int (s : string) : option (Z * string) :=
  match s with
  | EmptyString => None
  | String c r =>
      if Ascii.eqb c "-" then
        match scan_digits r with
        | (Decimal.Nil, _) => None
        | (u, r') => Some (Z.of_int (Decimal.Neg u), r')
        end
      else
        match scan_digits s with
        | (Decimal.Nil, _) => None
        | (u, r') => Some (Z.of_int (Decimal.Pos u), r')
        end
  end.

Definition hex_val (c : ascii) : option nat :=
  let n := nat_of_ascii c in
  if (48 <=? n)%nat && (n <=? 57)%nat then Some (n - 48)
  else if (97 <=? n)%nat && (n <=? 102)%nat then Some (n - 87)
  else if (65 <=? n)%nat && (n <=? 70)%nat then Some (n - 55)
  else None.

(** A four-digit escape for a code point below 256. *)
Definition unescape_hex (h1 h2 h3 h4 : ascii) : option ascii :=
  match hex_val h1, hex_val h2, hex_val h3, hex_val h4 with
  | Some 0, Some 0, Some a, Some b => Some (ascii_of_nat (16 * a + b))
  | _, _, _, _ => None
  end%nat.

Definition unescape (e : ascii) : option ascii :=
  if Ascii.eqb e dquote then Some dquote
  else if Ascii.eqb e backslash then Some backslash
  else if Ascii.eqb e "/" then Some "/"%char
  else if Ascii.eqb e "n" then Some "010"%char
  else if Ascii.eqb e "r" then Some "013"%char
  else if Ascii.eqb e "t" then Some "009"%char
  else if Ascii.eqb e "b" then Some "008"%char
  else if Ascii.eqb e "f" then Some "012"%char
  else None.

Definition push (c : ascii) (r : option (string * string)) : option (string * string) :=
  match r with
  | Some (x, rest) => Some (String c x, rest)
  | None => None
  end.

(** The characters of a string literal after its opening quote, up to
    and including the closing quote. *)
Fixpoint scan_string (s : string) : option (string * string) :=
  match s with
  | EmptyString => None
  | String c r =>
      if Ascii.eqb c dquote then Some (EmptyString, r)
      else if Ascii.eqb c backslash then
        match r with
        | EmptyString => None
        | String e r1 =>
            if Ascii.eqb e "u" then
              match r1 with
              | String h1 (String h2 (String h3 (String h4 r2))) =>
                  match unescape_hex h1 h2 h3 h4 with
                  | Some x => push x (scan_string r2)
                  | None => None
                  end
              | _ => None
              end
            else
              match unescape e with
              | Some x => push x (scan_string r1)
              | None => None
              end
        end
      else push c (scan_string r)
  end.

(** [expect lit s]: [s] without its prefix [lit]. *)
Fixpoint expect (lit s : string) : option string :=
  match lit with
  | EmptyString => Some s
  | String c lit' =>
      match s with
      | EmptyString => None
      | String c' s' => if Ascii.eqb c c' then expect lit' s' else None
      end
  end.

(** Modelled from the spec: the parser of the re-parsing step of the
    round-trip law, absent from the repository.  One value at the head of
    [s] and the rest of [s]; [fuel] bounds the nesting and the number of
    elements. *)
Fixpoint parse_value (fuel : nat) (s : string) : option (pyval * string) :=
  match fuel with
  | O => None
  | S f =>
      match s with
      | EmptyString => None
      | String c r =>
          if Ascii.eqb c "n" then
            match expect "ull" r with
            | Some r' => Some (PNone, r')
            | None => None
            end
          else if Ascii.eqb c dquote then
            match scan_string r with
            | Some (x, r') => Some (PStr x, r')
            | None => None
            end
          else if Ascii.eqb c "[" then
            match expect "]" r with
            | Some r' => Some (PList [], r')
            | None =>
                match parse_elements f r with
                | Some (l, r') => Some (PList l, r')
                | None => None
                end
            end
          else if Ascii.eqb c "{" then
            match expect "}" r with
            | Some r' => Some (PDict [], r')
            | None =>
                match parse_members f r with
                | Some (d, r') => Some (PDict d, r')
                | None => None
                end
            end
          else
            match scan_int s with
            | Some (n, r') => Some (PInt n, r')
            | None => None
            end
      end
  end
with parse_elements (fuel : nat) (s : string) : option (list pyval * string) :=
  match fuel with
  | O => None
  | S f =>
      match parse_value f s with
      | Some (v, r) =>
          match expect "]" r with
          | Some r' => Some ([v], r')
          | None =>
              match expect ", " r with
              | Some r' =>
                  match parse_elements f r' with
                  | Some (l, r'') => Some (v :: l, r'')
                  | None => None
                  end
              | None => None
              end
          end
      | None => None
      end
  end
with parse_members (fuel : nat) (s : string)
  : option (list (pykey * pyval) * string) :=
  match fuel with
  | O => None
  | S f =>
      match s with
      | EmptyString => None
      | String c r =>
          if Ascii.eqb c dquote then
            match scan_string r with
            | Some (k, r1) =>
                match expect ": " r1 with
                | Some r2 =>
                    match parse_value f r2 with
                    | Some (v, r3) =>
                        match expect "}" r3 with
                        | Some r' => Some ([(KStr k, v)], r')
                        | None =>
                            match expect ", " r3 with
                            | Some r' =>
                                match parse_members f r' with
                                | Some (d, r'') => Some ((KStr k, v) :: d, r'')
                                | None => None
                                end
                            | None => None
                            end
                        end
                    | None => None
                    end
                | None => None
                end
            | None => None
            end
          else None
      end
  end.

(** Modelled from the spec: re-parsing, absent from the repository.
    [json.loads(s)]: one value and nothing after it. *)
Definition loads (s : string) : option pyval :=
  match parse_value (S (String.length s)) s with
  | Some (v, EmptyString) => Some v
  | _ => None
  end.

Definition as_str (v : pyval) : option string :=
  match v with PStr s => Some s | _ => None end.

Definition as_int (v : pyval) : option Z :=
  match v with PInt n => Some n | _ => None end.

Fixpoint all_some {A} (l : list (option A)) : option (list A) :=
  match l with
  | [] => Some []
  | Some x :: r =>
      match all_some r with Some xs => Some (x :: xs) | None => None end
  | None :: _ => None
  end.

Definition as_list {A} (f : pyval -> option A) (v : pyval) : option (list A) :=
  match v with PList l => all_some (map f l) | _ => None end.

Definition as_metadata (v : pyval) : option (option (list (pykey * pyval))) :=
  match v with
  | PNone => Some None
  | PDict d => Some (Some d)
  | _ => None
  end.

Definition key_is (name : string) (k : pykey) : bool :=
  match k with KStr s => String.eqb s name | KInt _ => false end.

(** Modelled from the spec: rebuilding a [Question] from a parsed entry,
    absent from the repository.  The [Question] whose [__dict__] is [v]:
    the six fields in order. *)
Definition from_dict (v : pyval) : option Question :=
  match v with
  | PDict [(k1, v1); (k2, v2); (k3, v3); (k4, v4); (k5, v5); (k6, v6)] =>
      if key_is "text" k1 && key_is "type" k2 && key_is "answers" k3
         && key_is "correct_answers" k4 && key_is "distractors" k5
         && key_is "metadata" k6
      then
        match as_str v1, as_str v2, as_list as_str v3,
              as_list as_int v4, as_list as_str v5, as_metadata v6 with
        | Some t, Some ty, Some a, Some c, Some d, Some m =>
            Some (mkQuestion t ty a c d m)
        | _, _, _, _, _, _ => None
        end
      else None
  | _ => None
  end.

(** Modelled from the spec: re-parsing an exported byte sequence into a
    [QuizResult], absent from the repository. *)
Definition loads_questions (s : string) : option (list Question) :=
  match loads s with
  | Some v => as_list from_dict v
  | None => None
  end.

End JsonLoads.

(** ** Predicates used in the statements *)

(** The sentences [ss] occur in [t] one after the other, without overlap. *)
Inductive occurs_in_order : list string -> string -> Prop :=
| occurs_nil t : occurs_in_order [] t
| occurs_cons pre s rest ss :
    occurs_in_order ss rest ->
    occurs_in_order (s :: ss) (pre +:+ s +:+ rest).

(** Every question is built from a sentence of the text by one of the two
    templates. *)
Definition from_template (sentences : list string) (q : Question) : Prop :=
  exists s, In s sentences
            /\ (q = QuizGenerator.short_text_question s \/ q = QuizGenerator.multiple_choice_question s).

(** [q.type == 'multiple_choice'] *)
Definition is_multiple_choice (q : Question) : bool :=
  String.eqb (type q) "multiple_choice".

(** [enumerate(l)] counting from [i]. *)
Fixpoint enumerate_from {A} (i : Z) (l : list A) : list (Z * A) :=
  match l with
  | [] => []
  | x :: r => (i, x) :: enumerate_from (i + 1) r
  end.

(** The lines of one block: the marker line with the number [n], the line
    of the correct option [c] counted from one, the answer options, the
    distractors, the closing line. *)
Definition gift_block (n : Z) (q : Question) (c : Z) : list string :=
  [ "::Q" +:+ PyStr.str_of_int n +:+ "::" +:+ text q +:+ "{";
    "$A=" +:+ PyStr.str_of_int (c + 1) ]
  ++ (answers q ++ distractors q) ++ ["}"].

(** [b] is the block of the question [iq.2] found at index [iq.1]. *)
Definition is_gift_block (iq : Z * Question) (b : list string) : Prop :=
  exists c, head (correct_answers iq.2) = Some c
            /\ b = gift_block (iq.1 + 1) iq.2 c.

(** The blocks of the multiple-choice questions of [questions], each with
    the position of its question in [questions] and the first option as
    the correct one. *)
Definition first_option_blocks (questions : list Question) : list (list string) :=
  map (fun iq : Z * Question => gift_block (iq.1 + 1) iq.2 0)
      (List.filter (fun iq => is_multiple_choice iq.2) (enumerate_from 0 questions)).

(** The result of the scenario: two multiple-choice questions around one
    short-text question. *)
Definition gift_scenario : list Question :=
  [ QuizGenerator.multiple_choice_question "The sky is blue";
    QuizGenerator.short_text_question "Water is wet";
    QuizGenerator.multiple_choice_question "Water is wet" ].

(** Every dictionary key inside [v] is a string. *)
Fixpoint str_keys (v : pyval) : bool :=
  match v with
  | PList l => forallb str_keys l
  | PDict d =>
      forallb (fun kv => match fst kv with KStr _ => str_keys (snd kv) | KInt _ => false end) d
  | _ => true
  end.

Definition metadata_str_keys (q : Question) : bool :=
  match metadata q with
  | None => true
  | Some d => str_keys (PDict d)
  end.

(** The number of values, list elements and dictionary entries of [v]. *)
Fixpoint vsize (v : pyval) : nat :=
  match v with
  | PList l => S (list_sum (map (fun x => S (vsize x)) l))
  | PDict d => S (list_sum (map (fun kv => S (vsize (snd kv))) d))
  | _ => 1
  end.

(** What may follow a number: not a digit. *)
Definition no_digit_head (s : string) : bool :=
  match s with
  | EmptyString => true
  | String c _ => negb (JsonLoads.is_digit c)
  end.

(** Reading back what [dumps] wrote for [v], with enough fuel and
    whatever follows, gives [v] and what follows. *)
Definition reads_back (v : pyval) : Prop :=
  str_keys v = true ->
  forall fuel rest,
    vsize v <= fuel -> no_digit_head rest = true ->
    JsonLoads.parse_value fuel (dumps v +:+ rest) = Some (v, rest).

(** The number of occurrences of [x] in [s]. *)
Fixpoint count_char (x : ascii) (s : string) : nat :=
  match s with
  | EmptyString => 0
  | String c r => (if Ascii.eqb c x then 1 else 0) + count_char x r
  end.

(** No character of [s] is whitespace. *)
Fixpoint no_space (s : string) : bool :=
  match s with
  | EmptyString => true
  | String c r => negb (PyStr.isspace c) && no_space r
  end.

(** A word: a non-empty string without whitespace. *)
Definition is_word (s : string) : bool := PyStr.truthy s && no_space s.

(** The random source after [n] more draws. *)
Definition advance (st : RandomState) (n : nat) : RandomState :=
  mkRandomState (draws st) (pos st + n).

(** A printable ASCII character: space to tilde. *)
Definition printable (c : ascii) : bool :=
  let n := nat_of_ascii c in (32 <=? n)%nat && (n <=? 126)%nat.

Fixpoint all_printable (s : string) : bool :=
  match s with
  | EmptyString => true
  | String c r => printable c && all_printable r
  end.

(** The two fields of a question that the plain-text export writes. *)
Definition txt_fields (q : Question) : string * list string := (text q, answers q).

(** * Facts about the string primitives *)

#[local] Arguments String.append !_ _ / : simpl nomatch.

Section StringFacts.

Lemma str_app_assoc (a b c : string) : (a +:+ b) +:+ c = a +:+ (b +:+ c).
Proof. induction a as [|x a IH]; simpl; [reflexivity | now rewrite IH]. Qed.

Lemma str_app_nil_r (a : string) : a +:+ "" = a.
Proof. induction a as [|x a IH]; simpl; [reflexivity | now rewrite IH]. Qed.

Lemma str_length_app (a b : string) :
  String.length (a +:+ b) = String.length a + String.length b.
Proof. induction a as [|x a IH]; simpl; [reflexivity | now rewrite IH]. Qed.

Lemma lstrip_blank s : PyStr.is_blank s = true -> PyStr.lstrip s = "".
Proof.
  induction s as [|c s IH]; simpl; [reflexivity |].
  intros H. apply andb_prop in H as [Hc Hs]. rewrite Hc. auto.
Qed.

Lemma lstrip_head s :
  PyStr.lstrip s = "" /\ PyStr.is_blank s = true
  \/ exists c r, PyStr.lstrip s = String c r /\ PyStr.isspace c = false.
Proof.
  induction s as [|c s IH]; simpl; [left; auto |].
  destruct (PyStr.isspace c) eqn:Hc; simpl.
  - exact IH.
  - right. exists c, s. auto.
Qed.

Lemma rstrip_cons_nonspace c r :
  PyStr.isspace c = false -> exists r', PyStr.rstrip (String c r) = String c r'.
Proof.
  intros Hc. simpl. destruct (PyStr.rstrip r); [rewrite Hc |]; eauto.
Qed.

Lemma rstrip_idem s : PyStr.rstrip (PyStr.rstrip s) = PyStr.rstrip s.
Proof.
  induction s as [|c s IH]; simpl; [reflexivity |].
  destruct (PyStr.rstrip s) as [|d t] eqn:Hr.
  - destruct (PyStr.isspace c) eqn:Hc; simpl; [reflexivity | now rewrite Hc].
  - simpl in *. now rewrite IH.
Qed.

Lemma lstrip_decomp s :
  exists l, s = l +:+ PyStr.lstrip s /\ PyStr.is_blank l = true.
Proof.
  induction s as [|c s (l & Hl & Hb)]; simpl.
  - exists "". auto.
  - destruct (PyStr.isspace c) eqn:Hc.
    + exists (String c l). simpl. rewrite Hc, Hb. split; [now f_equal | reflexivity].
    + exists "". auto.
Qed.

Lemma rstrip_decomp s :
  exists r, s = PyStr.rstrip s +:+ r /\ PyStr.is_blank r = true.
Proof.
  induction s as [|c s (r & Hr & Hb)]; simpl.
  - exists "". auto.
  - destruct (PyStr.rstrip s) as [|d t] eqn:E.
    + destruct (PyStr.isspace c) eqn:Hc.
      * exists (String c r). simpl in *. rewrite Hc, Hb. split; [now f_equal | reflexivity].
      * exists r. simpl in *. split; [now f_equal | assumption].
    + exists r. simpl in *. split; [now f_equal | assumption].
Qed.

Lemma strip_decomp s : exists l r, s = l +:+ PyStr.strip s +:+ r.
Proof.
  destruct (lstrip_decomp s) as (l & Hl & _).
  destruct (rstrip_decomp (PyStr.lstrip s)) as (r & Hr & _).
  exists l, r. unfold PyStr.strip. now rewrite <- Hr.
Qed.

Lemma strip_lstrip_fixed s : PyStr.lstrip (PyStr.strip s) = PyStr.strip s.
Proof.
  unfold PyStr.strip.
  destruct (lstrip_head s) as [[-> _] | (c & r & -> & Hc)]; [reflexivity |].
  destruct (rstrip_cons_nonspace c r Hc) as [r' ->]. simpl. now rewrite Hc.
Qed.

Lemma strip_rstrip_fixed s : PyStr.rstrip (PyStr.strip s) = PyStr.strip s.
Proof. unfold PyStr.strip. apply rstrip_idem. Qed.

Lemma strip_blank s : PyStr.is_blank s = true -> PyStr.strip s = "".
Proof. intros H. unfold PyStr.strip. now rewrite lstrip_blank. Qed.

Lemma strip_nonblank s : PyStr.is_blank s = false -> PyStr.strip s <> "".
Proof.
  intros H. unfold PyStr.strip.
  destruct (lstrip_head s) as [[_ Hb] | (c & r & -> & Hc)]; [congruence |].
  destruct (rstrip_cons_nonspace c r Hc) as [r' ->]. discriminate.
Qed.

Lemma split_go_no_sep sep s :
  PyStr.contains sep s = false -> PyStr.split_go sep s = (s, []).
Proof.
  induction s as [|c s IH]; simpl; [reflexivity |].
  intros H. apply orb_false_elim in H as [Hc Hs].
  rewrite (IH Hs), Hc. reflexivity.
Qed.

Lemma blank_no_period s :
  PyStr.is_blank s = true -> PyStr.contains "." s = false.
Proof.
  induction s as [|c s IH]; simpl; [reflexivity |].
  intros H. apply andb_prop in H as [Hc Hs]. rewrite (IH Hs), orb_false_r.
  destruct (Ascii.eqb_spec c "."); [subst c; discriminate | reflexivity].
Qed.

Lemma join_cons_head sep c h t :
  PyStr.join sep (String c h :: t) = String c (PyStr.join sep (h :: t)).
Proof. unfold PyStr.join. destruct t; reflexivity. Qed.

Lemma join_split sep s :
  PyStr.join (String sep "") (PyStr.split sep s) = s.
Proof.
  unfold PyStr.split.
  induction s as [|c s IH]; simpl; [reflexivity |].
  destruct (PyStr.split_go sep s) as [h t].
  destruct (Ascii.eqb_spec c sep) as [-> | _].
  - unfold PyStr.join in *.
    change (String.concat (String sep "") ("" :: h :: t))
      with (String sep (String.concat (String sep "") (h :: t))).
    now rewrite IH.
  - rewrite join_cons_head. now rewrite IH.
Qed.

End StringFacts.

(** * Segmenter *)

Section Segmenter.

Lemma occurs_prepend pre ss t :
  occurs_in_order ss t -> occurs_in_order ss (pre +:+ t).
Proof.
  intros H. destruct H as [t | p s rest ss H].
  - constructor.
  - rewrite <- str_app_assoc. now constructor.
Qed.

Lemma occurs_pieces (pieces : list string) :
  occurs_in_order
    (map PyStr.strip (List.filter (fun s => PyStr.truthy (PyStr.strip s)) pieces))
    (PyStr.join "." pieces).
Proof.
  induction pieces as [|p ps IH]; [constructor |].
  assert (Htail : occurs_in_order
            (map PyStr.strip (List.filter (fun s => PyStr.truthy (PyStr.strip s)) ps))
            (match ps with [] => "" | _ => "." +:+ PyStr.join "." ps end)).
  { destruct ps; [simpl; constructor | now apply occurs_prepend]. }
  assert (Hjoin : PyStr.join "." (p :: ps)
                  = p +:+ match ps with [] => "" | _ => "." +:+ PyStr.join "." ps end).
  { unfold PyStr.join. destruct ps; simpl; [now rewrite str_app_nil_r | reflexivity]. }
  rewrite Hjoin. clear Hjoin IH. cbn [List.filter].
  destruct (PyStr.truthy (PyStr.strip p)); cbn [map].
  - destruct (strip_decomp p) as (l & r & Hp).
    rewrite Hp at 2. rewrite !str_app_assoc.
    constructor. now apply occurs_prepend.
  - now apply occurs_prepend.
Qed.

(** C7: every sentence returned by [extract_sentences] is non-empty, not
    made of whitespace only and has no whitespace at either end; the
    sentences occur in the text in the order returned; a text without a
    period that is not blank gives its trimmed self as the only sentence;
    an empty or blank text gives no sentence. *)
Theorem extract_sentences_spec (text : string) :
  (forall s, In s (TextProcessor.extract_sentences text) ->
     s <> "" /\ PyStr.is_blank s = false
     /\ PyStr.lstrip s = s /\ PyStr.rstrip s = s)
  /\ occurs_in_order (TextProcessor.extract_sentences text) text
  /\ (PyStr.contains "." text = false -> PyStr.is_blank text = false ->
      TextProcessor.extract_sentences text = [PyStr.strip text])
  /\ (PyStr.is_blank text = true -> TextProcessor.extract_sentences text = []).
Proof.
  unfold TextProcessor.extract_sentences. repeat split.
  - apply in_map_iff in H as (p & <- & Hp).
    apply filter_In in Hp as [_ Hp]. intros E. now rewrite E in Hp.
  - apply in_map_iff in H as (p & <- & Hp).
    apply filter_In in Hp as [_ Hp].
    destruct (PyStr.is_blank (PyStr.strip p)) eqn:Hb; [| reflexivity].
    apply lstrip_blank in Hb. rewrite strip_lstrip_fixed in Hb.
    now rewrite Hb in Hp.
  - apply in_map_iff in H as (p & <- & _). apply strip_lstrip_fixed.
  - apply in_map_iff in H as (p & <- & _). apply strip_rstrip_fixed.
  - pose proof (occurs_pieces (PyStr.split "." text)) as H.
    now rewrite (join_split "." text) in H.
  - intros Hdot Hb. unfold PyStr.split. rewrite (split_go_no_sep _ _ Hdot). simpl.
    destruct (PyStr.strip text) eqn:E; [now apply strip_nonblank in Hb |].
    simpl. now rewrite E.
  - intros Hb. unfold PyStr.split.
    rewrite (split_go_no_sep _ _ (blank_no_period _ Hb)). simpl.
    now rewrite (strip_blank _ Hb).
Qed.

Lemma extract_sentences_spec_witness :
  TextProcessor.extract_sentences " The sky is blue " = ["The sky is blue"]
  /\ TextProcessor.extract_sentences "   " = [].
Proof.
  split.
  - apply (proj1 (proj2 (proj2 (extract_sentences_spec " The sky is blue "))));
      reflexivity.
  - apply (proj2 (proj2 (proj2 (extract_sentences_spec "   ")))); reflexivity.
Defined.

Example extract_sentences_two :
  TextProcessor.extract_sentences "The sky is blue. Water is wet."
  = ["The sky is blue"; "Water is wet"].
Proof. reflexivity. Qed.

End Segmenter.

(** * Distractor synthesis *)

Section Distractors.

Import DistractorGenerator.

Lemma iter_append_repeat {A} (x : A) (k : nat) :
  Nat.iter k (fun acc => acc ++ [x]) [] = repeat x k.
Proof.
  induction k as [|k IH]; [reflexivity |].
  simpl. rewrite IH. clear IH.
  induction k as [|k IH]; [reflexivity |]. simpl. now rewrite IH.
Qed.

Lemma slice_to_all {A} (l : list A) (n : Z) :
  length l = Z.to_nat n -> PyStr.slice_to l n = l.
Proof.
  intros H. unfold PyStr.slice_to.
  destruct (0 <=? n)%Z eqn:Hn.
  - rewrite <- H. apply firstn_all.
  - apply Z.leb_gt in Hn.
    destruct l; [now rewrite firstn_nil | simpl in H; lia].
Qed.

Lemma short_answer_repeat (correct : string) (n : Z) :
  generate_short_answer_distractors correct n
  = repeat (PyStr.join " " (rev (PyStr.split_ws (PyStr.lower correct)))) (Z.to_nat n).
Proof.
  unfold generate_short_answer_distractors.
  rewrite iter_append_repeat. apply slice_to_all. apply repeat_length.
Qed.

Lemma isspace_lower_char c : PyStr.isspace (PyStr.lower_char c) = PyStr.isspace c.
Proof. destruct c as [[|] [|] [|] [|] [|] [|] [|] [|]]; reflexivity. Qed.

Lemma words_go_lower s :
  PyStr.words_go (PyStr.lower s)
  = (PyStr.lower (fst (PyStr.words_go s)), map PyStr.lower (snd (PyStr.words_go s))).
Proof.
  induction s as [|c s IH]; [reflexivity |].
  cbn [PyStr.lower PyStr.words_go]. rewrite IH, isspace_lower_char.
  destruct (PyStr.words_go s) as [h t]. cbn [fst snd].
  destruct (PyStr.isspace c); [| reflexivity].
  now destruct h.
Qed.

Lemma split_ws_lower s :
  PyStr.split_ws (PyStr.lower s) = map PyStr.lower (PyStr.split_ws s).
Proof.
  unfold PyStr.split_ws. rewrite words_go_lower.
  destruct (PyStr.words_go s) as [h t]. cbn [fst snd]. now destruct h.
Qed.

(** C3, as the code has it: [generate_short_answer_distractors correct n]
    has exactly [n] entries (none for a negative [n]); every entry is the
    lower-cased words of [correct] in reverse order joined by single
    spaces; and when [correct] has no word the entries are [n] empty
    strings. *)
Theorem short_answer_distractors_spec (correct : string) (n : Z) :
  length (generate_short_answer_distractors correct n) = Z.to_nat n
  /\ Forall (fun d => d = PyStr.join " " (rev (PyStr.split_ws (PyStr.lower correct))))
            (generate_short_answer_distractors correct n)
  /\ (PyStr.split_ws correct = [] ->
      generate_short_answer_distractors correct n = repeat "" (Z.to_nat n)).
Proof.
  rewrite short_answer_repeat. split; [| split].
  - apply repeat_length.
  - apply List.Forall_forall. intros d Hd. now apply repeat_spec in Hd.
  - intros Hw. now rewrite split_ws_lower, Hw.
Qed.

Lemma short_answer_distractors_spec_witness :
  generate_short_answer_distractors "  " 2 = repeat "" (Z.to_nat 2).
Proof.
  apply (proj2 (proj2 (short_answer_distractors_spec "  " 2))). reflexivity.
Defined.

(** C3 fails as stated: the one-word answer [a] is its own distractor, and
    an answer without words gives as many empty strings as requested, not
    an empty sequence. *)
Lemma short_answer_distractors_counterexample :
  (PyStr.split_ws "a" = ["a"]
   /\ generate_short_answer_distractors "a" 1 = ["a"]
   /\ ~ Forall (fun d => d <> "a") (generate_short_answer_distractors "a" 1))
  /\ (PyStr.split_ws "" = []
      /\ generate_short_answer_distractors "" 2 = [""; ""]
      /\ generate_short_answer_distractors "" 2 <> []).
Proof.
  repeat split; try reflexivity.
  - intros H. apply Forall_inv in H. now apply H.
  - discriminate.
Qed.

Lemma multiple_choice_pool_NoDup (c : string) :
  NoDup [c; c +:+ " but faster"; "Not " +:+ c; c +:+ " and slower"].
Proof.
  assert (H1 : c <> c +:+ " but faster").
  { intros E. apply (f_equal String.length) in E. rewrite !str_length_app in E.
    simpl in E. lia. }
  assert (H2 : c <> "Not " +:+ c).
  { intros E. apply (f_equal String.length) in E. simpl in E. lia. }
  assert (H3 : c <> c +:+ " and slower").
  { intros E. apply (f_equal String.length) in E. rewrite !str_length_app in E.
    simpl in E. lia. }
  assert (H4 : c +:+ " but faster" <> "Not " +:+ c).
  { intros E. apply (f_equal String.length) in E. rewrite !str_length_app in E.
    simpl in E. lia. }
  assert (H5 : c +:+ " but faster" <> c +:+ " and slower").
  { intros E. apply String.app_inj in E. discriminate. }
  assert (H6 : "Not " +:+ c <> c +:+ " and slower").
  { intros E. apply (f_equal String.length) in E. rewrite !str_length_app in E.
    simpl in E. lia. }
  rewrite !NoDup_cons, !not_elem_of_cons.
  repeat split; auto using NoDup_nil_2, not_elem_of_nil.
Qed.

Lemma multiple_choice_take (c : string) (k : Z) :
  (1 <= k)%Z ->
  generate_multiple_choice_distractors c k
  = firstn (Z.to_nat k) [c; c +:+ " but faster"; "Not " +:+ c; c +:+ " and slower"].
Proof.
  intros Hk. unfold generate_multiple_choice_distractors, PyStr.slice_to.
  destruct (0 <=? k - 1)%Z eqn:E; [| apply Z.leb_gt in E; lia].
  replace (Z.to_nat k) with (S (Z.to_nat (k - 1))) by lia. reflexivity.
Qed.

Lemma multiple_choice_length (c : string) (k : Z) :
  (1 <= k)%Z ->
  length (generate_multiple_choice_distractors c k) = Z.to_nat (Z.min k 4).
Proof.
  intros Hk. rewrite multiple_choice_take by assumption.
  rewrite length_firstn. simpl. lia.
Qed.

(** C4, as the code has it: for [k >= 1] the result has [min k 4] entries
    (the correct answer and at most three variations), its first entry is
    the correct answer and its entries are pairwise distinct. *)
Theorem multiple_choice_distractors_spec (correct : string) (k : Z) :
  (1 <= k)%Z ->
  length (generate_multiple_choice_distractors correct k) = Z.to_nat (Z.min k 4)
  /\ head (generate_multiple_choice_distractors correct k) = Some correct
  /\ NoDup (generate_multiple_choice_distractors correct k).
Proof.
  intros Hk. split; [now apply multiple_choice_length |]. split.
  - reflexivity.
  - rewrite multiple_choice_take by assumption.
    eapply sublist_NoDup; [apply multiple_choice_pool_NoDup | apply sublist_take].
Qed.

Lemma multiple_choice_distractors_spec_witness :
  length (generate_multiple_choice_distractors "X" 3) = Z.to_nat (Z.min 3 4)
  /\ head (generate_multiple_choice_distractors "X" 3) = Some "X"
  /\ NoDup (generate_multiple_choice_distractors "X" 3).
Proof. apply (multiple_choice_distractors_spec "X" 3). lia. Defined.

(** C4 fails as stated: asked for five options the code returns four. *)
Lemma multiple_choice_distractors_counterexample :
  generate_multiple_choice_distractors "X" 5
  = ["X"; "X but faster"; "Not X"; "X and slower"]
  /\ length (generate_multiple_choice_distractors "X" 5) <> 5.
Proof. split; [reflexivity | discriminate]. Qed.

(** C2, as the code has it: for [optionCount >= 1] at most [optionCount]
    entries are returned, and for every [optionCount] the call returns a
    list that starts with the correct answer: there is no failure path. *)
Theorem multiple_choice_bound (correct : string) :
  (forall k, (1 <= k)%Z ->
     (Z.of_nat (length (generate_multiple_choice_distractors correct k)) <= k)%Z)
  /\ (forall k, exists rest,
        generate_multiple_choice_distractors correct k = correct :: rest).
Proof.
  split.
  - intros k Hk. rewrite multiple_choice_length by assumption. lia.
  - intros k. eexists. reflexivity.
Qed.

Lemma multiple_choice_bound_witness :
  (Z.of_nat (length (generate_multiple_choice_distractors "X" 2)) <= 2)%Z.
Proof. apply (proj1 (multiple_choice_bound "X") 2%Z). lia. Defined.

(** C2 fails as stated: with [optionCount = 0] the call does not fail, it
    returns three entries, more than the bound of zero. *)
Lemma multiple_choice_bound_counterexample :
  generate_multiple_choice_distractors "X" 0 = ["X"; "X but faster"; "Not X"]
  /\ ~ (Z.of_nat (length (generate_multiple_choice_distractors "X" 0)) <= 0)%Z.
Proof. split; [reflexivity | simpl; lia]. Qed.

End Distractors.

(** * Question assembly *)

Section Assembly.

Import QuizGenerator.

Lemma choice_empty {A} (st : RandomState) : choice (@nil A) st = Raise IndexError.
Proof. reflexivity. Qed.

Lemma choice_In {A} (seq : list A) st x st' :
  choice seq st = Return (x, st') -> In x seq.
Proof.
  unfold choice. destruct seq as [|y l]; [discriminate |].
  assert (Hi : (draws st (pos st) mod length (y :: l) < length (y :: l))%nat)
    by (apply Nat.mod_upper_bound; discriminate).
  revert Hi. generalize (draws st (pos st) mod length (y :: l))%nat as i.
  intros i Hi H. injection H as Hx _. rewrite <- Hx.
  change (In (nth i (y :: l) y) (y :: l)). now apply nth_In.
Qed.

Lemma choice_singleton {A} (x : A) st :
  choice [x] st = Return (x, mkRandomState (draws st) (S (pos st))).
Proof. unfold choice. simpl length. now rewrite Nat.mod_1_r. Qed.

(** A loop whose body draws from an empty sequence raises at its first
    iteration. *)
Lemma for_range_choice_empty {A S} (f : S -> A -> S) n acc st :
  n <> 0%nat ->
  for_range n (fun acc => x <- choice (@nil A) ;; ret (f acc x)) acc st
  = Raise IndexError.
Proof. destruct n; [congruence | reflexivity]. Qed.

Lemma for_range_zero {S} (body : S -> M S) acc st :
  for_range 0 body acc st = Return (acc, st).
Proof. reflexivity. Qed.

(** An invariant of the accumulator is kept by the loop. *)
Lemma for_range_invariant {S} (P : S -> Prop) (body : S -> M S) :
  (forall acc st acc' st', P acc -> body acc st = Return (acc', st') -> P acc') ->
  forall n acc st acc' st',
    P acc -> for_range n body acc st = Return (acc', st') -> P acc'.
Proof.
  intros Hbody. induction n as [|n IH]; intros acc st acc' st' Hacc Hrun.
  - now injection Hrun as <- _.
  - simpl in Hrun. unfold bind in Hrun.
    destruct (body acc st) as [[acc1 st1]|e] eqn:E; [| discriminate].
    eapply IH; [| exact Hrun]. eapply Hbody; eauto.
Qed.

Lemma template_step (sentences : list string) (mk : string -> Question) :
  (forall s, mk s = short_text_question s \/ mk s = multiple_choice_question s) ->
  forall acc st acc' st',
    Forall (from_template sentences) acc ->
    (sentence <- choice sentences ;; ret (acc ++ [mk sentence])) st
    = Return (acc', st') ->
    Forall (from_template sentences) acc'.
Proof.
  intros Hmk acc st acc' st' Hacc Hrun. unfold bind in Hrun.
  destruct (choice sentences st) as [[s st1]|e] eqn:E; [| discriminate].
  injection Hrun as <- _. apply Forall_app. split; [assumption |].
  constructor; [| constructor]. exists s. split; [now apply choice_In in E |].
  destruct (Hmk s) as [-> | ->]; auto.
Qed.

Lemma generate_quiz_templates text counts st qs st' :
  generate_quiz text counts st = Return (qs, st') ->
  Forall (from_template (TextProcessor.extract_sentences text)) qs.
Proof.
  unfold generate_quiz. set (sentences := TextProcessor.extract_sentences text).
  unfold bind at 1. unfold lift.
  destruct (dict_getitem counts "short_text") as [n|e]; [| discriminate].
  unfold bind at 1.
  destruct (for_range (Z.to_nat n) _ [] st) as [[qs1 st1]|e] eqn:E1; [| discriminate].
  unfold bind at 1.
  destruct (dict_getitem counts "multiple_choice") as [m|e]; [| discriminate].
  unfold bind at 1.
  destruct (for_range (Z.to_nat m) _ qs1 st1) as [[qs2 st2]|e] eqn:E2; [| discriminate].
  intros [= <- _].
  eapply (for_range_invariant (Forall (from_template sentences))) in E1;
    [| intros; eapply (template_step sentences short_text_question); eauto
     | constructor ].
  eapply (for_range_invariant (Forall (from_template sentences))) in E2;
    [exact E2
    | intros; eapply (template_step sentences multiple_choice_question); eauto
    | exact E1 ].
Qed.

(** C1 at the failing input: for the text [The sky is blue.] and one
    multiple-choice question, whatever the random draws, the question
    produced has [Accurate] as the answer at its correct index and also as
    an element of its distractors. *)
Theorem generate_quiz_distractor_overlap (st : RandomState) :
  exists q st',
    generate_quiz "The sky is blue."
      (<["short_text" := 0%Z]> (<["multiple_choice" := 1%Z]> (<["ordering" := 0%Z]> ∅)))
      st = Return ([q], st')
    /\ type q = "multiple_choice"
    /\ correct_answers q = [0%Z]
    /\ answers q !! 0%nat = Some "Accurate"
    /\ In "Accurate" (distractors q).
Proof.
  exists (multiple_choice_question "The sky is blue"),
         (mkRandomState (draws st) (S (pos st))).
  split; [| repeat split; simpl; auto].
  unfold generate_quiz, dict_getitem.
  change (TextProcessor.extract_sentences "The sky is blue.") with ["The sky is blue"].
  rewrite lookup_insert_eq, lookup_insert_ne, lookup_insert_eq by discriminate.
  unfold bind, lift.
  change (Z.to_nat 0) with 0%nat. change (Z.to_nat 1) with 1%nat.
  cbn [for_range]. unfold bind, ret. now rewrite choice_singleton.
Qed.

(** C5, as the code has it: when the text has no sentence, a positive
    count of short-text questions, or no short-text question and a
    positive count of multiple-choice questions, makes [generate_quiz]
    raise [IndexError] at its first random choice. *)
Theorem generate_quiz_empty_corpus text (counts : gmap string Z) st :
  TextProcessor.extract_sentences text = [] ->
  (forall n, counts !! "short_text" = Some n -> (0 < n)%Z ->
     generate_quiz text counts st = Raise IndexError)
  /\ (forall n m, counts !! "short_text" = Some n -> (n <= 0)%Z ->
        counts !! "multiple_choice" = Some m -> (0 < m)%Z ->
        generate_quiz text counts st = Raise IndexError).
Proof.
  intros Hs. unfold generate_quiz. rewrite Hs. split.
  - intros n Hn Hpos. unfold bind at 1. unfold lift, dict_getitem. rewrite Hn.
    unfold bind at 1. rewrite for_range_choice_empty by lia. reflexivity.
  - intros n m Hn Hle Hm Hpos. unfold bind at 1. unfold lift, dict_getitem. rewrite Hn.
    unfold bind at 1. replace (Z.to_nat n) with 0%nat by lia. rewrite for_range_zero.
    unfold bind at 1. rewrite Hm.
    unfold bind at 1. rewrite for_range_choice_empty by lia. reflexivity.
Qed.

Lemma generate_quiz_empty_corpus_witness :
  generate_quiz "" {[ "short_text" := 1%Z ]} (mkRandomState (fun _ => 0%nat) 0)
  = Raise IndexError.
Proof.
  apply (proj1 (generate_quiz_empty_corpus "" {[ "short_text" := 1%Z ]}
                  (mkRandomState (fun _ => 0%nat) 0) eq_refl) 1%Z);
    [reflexivity | lia].
Defined.

(** C5 fails as stated: with no sentence and a positive count for ordering
    questions only, [generate_quiz] returns the empty list. *)
Lemma generate_quiz_empty_corpus_counterexample :
  TextProcessor.extract_sentences "" = []
  /\ generate_quiz ""
       (<["short_text" := 0%Z]> (<["multiple_choice" := 0%Z]> (<["ordering" := 1%Z]> ∅)))
       (mkRandomState (fun _ => 0%nat) 0)
     = Return ([], mkRandomState (fun _ => 0%nat) 0).
Proof. split; reflexivity. Qed.

(** C6, as the code has it: the count requested for ordering questions is
    never read, so the outcome is the same whatever it is, and every
    question produced is a short-text or a multiple-choice question. *)
Theorem generate_quiz_ignores_ordering :
  (forall text (counts : gmap string Z) v st,
     generate_quiz text (<["ordering" := v]> counts) st = generate_quiz text counts st)
  /\ (forall text counts st qs st',
        generate_quiz text counts st = Return (qs, st') ->
        Forall (fun q => type q = "short_text" \/ type q = "multiple_choice") qs).
Proof.
  split.
  - intros text counts v st. unfold generate_quiz, dict_getitem.
    rewrite !lookup_insert_ne by discriminate. reflexivity.
  - intros text counts st qs st' H. apply generate_quiz_templates in H.
    eapply Forall_impl; [exact H |].
    intros q (s & _ & [-> | ->]); simpl; auto.
Qed.

Lemma generate_quiz_ignores_ordering_witness :
  Forall (fun q => type q = "short_text" \/ type q = "multiple_choice")
         [short_text_question "The sky is blue"].
Proof.
  apply (proj2 generate_quiz_ignores_ordering "The sky is blue."
           (<["short_text" := 1%Z]> (<["multiple_choice" := 0%Z]> (<["ordering" := 2%Z]> ∅)))
           (mkRandomState (fun _ => 0%nat) 0)
           [short_text_question "The sky is blue"]
           (mkRandomState (fun _ => 0%nat) 1)).
  reflexivity.
Defined.

(** C6 fails as stated: asked for two ordering questions the assembler
    does not fail, it returns the one short-text question and nothing
    else. *)
Lemma generate_quiz_ordering_counterexample :
  generate_quiz "The sky is blue."
    (<["short_text" := 1%Z]> (<["multiple_choice" := 0%Z]> (<["ordering" := 2%Z]> ∅)))
    (mkRandomState (fun _ => 0%nat) 0)
  = Return ([short_text_question "The sky is blue"], mkRandomState (fun _ => 0%nat) 1).
Proof. reflexivity. Qed.

End Assembly.

(** * Export *)

Section Exporter.

Import StreamlitQuizApp.

Lemma list_getitem_head {A} (l : list A) :
  list_getitem l 0 = match head l with Some x => Return x | None => Raise IndexError end.
Proof. destruct l; reflexivity. Qed.

Lemma gift_loop_blocks (questions : list Question) :
  Forall (fun q => type q = "multiple_choice" -> correct_answers q <> []) questions ->
  forall i acc,
  exists blocks,
    gift_loop i questions acc = Return (acc ++ concat blocks)
    /\ Forall2 is_gift_block
         (List.filter (fun iq => is_multiple_choice iq.2) (enumerate_from i questions))
         blocks.
Proof.
  induction 1 as [|q qs Hq _ IH]; intros i acc.
  - exists []. split; [simpl; now rewrite app_nil_r | constructor].
  - cbn [gift_loop enumerate_from List.filter]. unfold gift_step, is_multiple_choice.
    cbn [snd]. destruct (String.eqb_spec (type q) "multiple_choice") as [Hty | Hty].
    + rewrite list_getitem_head.
      destruct (correct_answers q) as [|c cs] eqn:Hc; [now destruct (Hq Hty) |].
      cbn [head rbind].
      destruct (IH (i + 1)%Z
                  ((((acc ++ ["::Q" +:+ PyStr.str_of_int (i + 1) +:+ "::" +:+ text q +:+ "{"])
                      ++ ["$A=" +:+ PyStr.str_of_int (c + 1)])
                     ++ (answers q ++ distractors q)) ++ ["}"]))
        as (blocks & Hrun & Hblocks).
      exists (gift_block (i + 1) q c :: blocks). split.
      * rewrite Hrun. f_equal. unfold gift_block. cbn [concat].
        rewrite <- !app_assoc. reflexivity.
      * constructor; [| exact Hblocks]. exists c. cbn [fst snd]. now rewrite Hc.
    + cbn [rbind]. apply IH.
Qed.

Lemma filter_enumerate_length (questions : list Question) i :
  length (List.filter (fun iq : Z * Question => is_multiple_choice iq.2)
            (enumerate_from i questions))
  = length (List.filter is_multiple_choice questions).
Proof.
  revert i. induction questions as [|q qs IH]; intros i; [reflexivity |].
  cbn [enumerate_from List.filter snd].
  destruct (is_multiple_choice q); cbn [length]; now rewrite IH.
Qed.

Lemma gift_export_run (questions : list Question) :
  Forall (fun q => type q = "multiple_choice" -> correct_answers q <> []) questions ->
  exists blocks,
    export_questions questions "gift" = Return (Some (PyStr.join nl (concat blocks)))
    /\ Forall2 is_gift_block
         (List.filter (fun iq => is_multiple_choice iq.2) (enumerate_from 0 questions))
         blocks.
Proof.
  intros H. destruct (gift_loop_blocks questions H 0%Z []) as (blocks & Hrun & Hb).
  exists blocks. split; [| exact Hb].
  unfold export_questions. simpl String.eqb. now rewrite Hrun.
Qed.

(** C9: when every multiple-choice question names a correct option, the
    flashcard export is the lines of one block per multiple-choice
    question, in order, joined by newlines; questions of any other kind
    contribute nothing.  Each block is the marker line with the question's
    position counted from one, the line of the correct option counted
    from one, the answer options, the distractors, and the closing line. *)
Theorem gift_export_blocks (questions : list Question) :
  Forall (fun q => type q = "multiple_choice" -> correct_answers q <> []) questions ->
  exists blocks,
    export_questions questions "gift" = Return (Some (PyStr.join nl (concat blocks)))
    /\ length blocks = length (List.filter is_multiple_choice questions)
    /\ Forall2 is_gift_block
         (List.filter (fun iq => is_multiple_choice iq.2) (enumerate_from 0 questions))
         blocks.
Proof.
  intros H. destruct (gift_export_run questions H) as (blocks & Hrun & Hb).
  exists blocks. split; [exact Hrun | split; [| exact Hb]].
  rewrite <- (Forall2_length _ _ _ Hb). apply filter_enumerate_length.
Qed.

Lemma gift_export_blocks_witness :
  exists blocks,
    export_questions gift_scenario "gift" = Return (Some (PyStr.join nl (concat blocks)))
    /\ length blocks = 2%nat
    /\ Forall2 is_gift_block
         [ (0%Z, QuizGenerator.multiple_choice_question "The sky is blue");
           (2%Z, QuizGenerator.multiple_choice_question "Water is wet") ]
         blocks.
Proof.
  apply (gift_export_blocks gift_scenario).
  repeat constructor; discriminate.
Defined.

(** C10: a format other than [json], [txt] and [gift] takes no branch:
    the export returns [None], without raising. *)
Theorem export_unknown_format (questions : list Question) (format_type : string) :
  format_type <> "json" -> format_type <> "txt" -> format_type <> "gift" ->
  export_questions questions format_type = Return None.
Proof.
  intros Hj Ht Hg. unfold export_questions.
  apply String.eqb_neq in Hj, Ht, Hg. now rewrite Hj, Ht, Hg.
Qed.

Lemma export_unknown_format_witness :
  export_questions gift_scenario "xml" = Return None.
Proof. apply export_unknown_format; discriminate. Defined.

End Exporter.

(** * Round trip through the structured-data format *)

Section RoundTrip.

Import JsonLoads.

(** Induction on values with the hypothesis for the elements of a list and
    the values of a dictionary. *)
Lemma pyval_nested_ind (P : pyval -> Prop) :
  P PNone -> (forall n, P (PInt n)) -> (forall s, P (PStr s)) ->
  (forall l, Forall P l -> P (PList l)) ->
  (forall d, Forall (fun kv => P (snd kv)) d -> P (PDict d)) ->
  forall v, P v.
Proof.
  intros HN HI HS HL HD.
  fix IH 1. intros [ | n | s | l | d ].
  - exact HN.
  - apply HI.
  - apply HS.
  - apply HL. induction l as [|x l IHl]; constructor; [apply IH | exact IHl].
  - apply HD. induction d as [|[k x] d IHd]; constructor; [apply IH | exact IHd].
Qed.

(** ** String literals *)

Lemma scan_escape_char c r :
  scan_string (escape_char c +:+ r) = push c (scan_string r).
Proof.
  destruct c as [[|] [|] [|] [|] [|] [|] [|] [|]]; reflexivity.
Qed.

Lemma scan_string_escape s rest :
  scan_string (escape s +:+ String dquote rest) = Some (s, rest).
Proof.
  induction s as [|c s IH]; [reflexivity |].
  cbn [escape]. rewrite str_app_assoc, scan_escape_char, IH. reflexivity.
Qed.

Lemma dumps_str_app s rest :
  dumps_str s +:+ rest = String dquote (escape s +:+ String dquote rest).
Proof. unfold dumps_str. cbn [String.append]. now rewrite str_app_assoc. Qed.

(** ** Integers *)

Lemma scan_digits_stop rest :
  no_digit_head rest = true -> scan_digits rest = (Decimal.Nil, rest).
Proof.
  destruct rest as [|c r]; [reflexivity |]. cbn [no_digit_head scan_digits].
  unfold is_digit. now destruct (digit_of c).
Qed.

Lemma scan_digits_uint u rest :
  no_digit_head rest = true ->
  scan_digits (NilEmpty.string_of_uint u +:+ rest) = (u, rest).
Proof.
  intros H. induction u; cbn [NilEmpty.string_of_uint String.append];
    [now apply scan_digits_stop | cbn [scan_digits]; rewrite IHu; reflexivity ..].
Qed.

Lemma uint_head u :
  u <> Decimal.Nil ->
  exists c r, NilEmpty.string_of_uint u = String c r /\ is_digit c = true.
Proof. destruct u; [congruence | intros _; do 2 eexists; split; reflexivity ..]. Qed.

Lemma str_of_int_head n :
  exists c r, PyStr.str_of_int n = String c r
              /\ (c = "-"%char \/ is_digit c = true).
Proof.
  unfold PyStr.str_of_int. destruct n as [|p|p]; cbn [Z.to_int NilZero.string_of_int].
  - do 2 eexists. split; [reflexivity | right; reflexivity].
  - destruct (uint_head _ (Unsigned.to_uint_nonnil p)) as (c & r & E & Hc).
    exists c, r. split; [| now right].
    unfold NilZero.string_of_uint. rewrite <- E.
    destruct (Pos.to_uint p) eqn:Ep; [now apply Unsigned.to_uint_nonnil in Ep | reflexivity ..].
  - do 2 eexists. split; [reflexivity | now left].
Qed.

Lemma scan_int_digits c r :
  is_digit c = true ->
  scan_int (String c r)
  = match scan_digits (String c r) with
    | (Decimal.Nil, _) => None
    | (u, r') => Some (Z.of_int (Decimal.Pos u), r')
    end.
Proof.
  intros Hc. unfold scan_int.
  destruct (Ascii.eqb_spec c "-"); [subst c; discriminate | reflexivity].
Qed.

Lemma scan_int_str_of_int n rest :
  no_digit_head rest = true ->
  scan_int (PyStr.str_of_int n +:+ rest) = Some (n, rest).
Proof.
  intros H. unfold PyStr.str_of_int.
  rewrite <- (DecimalZ.of_to n) at 2.
  destruct n as [|p|p]; cbn [Z.to_int NilZero.string_of_int].
  - cbn. rewrite (scan_digits_stop _ H). reflexivity.
  - pose proof (Unsigned.to_uint_nonnil p) as Hnil.
    assert (E : NilZero.string_of_uint (Pos.to_uint p)
                = NilEmpty.string_of_uint (Pos.to_uint p)).
    { unfold NilZero.string_of_uint. now destruct (Pos.to_uint p). }
    rewrite E. destruct (uint_head _ Hnil) as (c & r & Er & Hc).
    assert (Happ : NilEmpty.string_of_uint (Pos.to_uint p) +:+ rest
                   = String c (r +:+ rest)) by (now rewrite Er).
    rewrite Happ, (scan_int_digits _ _ Hc), <- Happ, (scan_digits_uint _ _ H).
    now destruct (Pos.to_uint p).
  - pose proof (Unsigned.to_uint_nonnil p) as Hnil.
    assert (E : NilZero.string_of_uint (Pos.to_uint p)
                = NilEmpty.string_of_uint (Pos.to_uint p)).
    { unfold NilZero.string_of_uint. now destruct (Pos.to_uint p). }
    rewrite E. cbn [String.append scan_int]. change (Ascii.eqb "-" "-") with true.
    cbn iota. rewrite (scan_digits_uint _ _ H).
    now destruct (Pos.to_uint p).
Qed.

(** ** Values *)

Lemma join_two sep x y (l : list string) :
  PyStr.join sep (x :: y :: l) = x +:+ sep +:+ PyStr.join sep (y :: l).
Proof. reflexivity. Qed.

Lemma dumps_list_app l rest :
  dumps (PList l) +:+ rest
  = String "[" (PyStr.join ", " (map dumps l) +:+ String "]" rest).
Proof. cbn [dumps String.append]. now rewrite str_app_assoc. Qed.

Lemma dumps_dict_app d rest :
  dumps (PDict d) +:+ rest
  = String "{" (PyStr.join ", "
                  (map (fun kv => dumps_key (fst kv) +:+ ": " +:+ dumps (snd kv)) d)
                +:+ String "}" rest).
Proof. cbn [dumps String.append]. now rewrite str_app_assoc. Qed.

Lemma parse_value_none f rest :
  parse_value (S f) ("null" +:+ rest) = Some (PNone, rest).
Proof. reflexivity. Qed.

Lemma parse_value_str f s rest :
  parse_value (S f) (dumps_str s +:+ rest) = Some (PStr s, rest).
Proof.
  rewrite dumps_str_app. cbn [parse_value].
  change (Ascii.eqb dquote "n") with false. change (Ascii.eqb dquote dquote) with true.
  cbn iota. now rewrite scan_string_escape.
Qed.

Lemma parse_value_int f n rest :
  no_digit_head rest = true ->
  parse_value (S f) (PyStr.str_of_int n +:+ rest) = Some (PInt n, rest).
Proof.
  intros H. pose proof (scan_int_str_of_int n rest H) as Hscan.
  destruct (str_of_int_head n) as (c & r & E & Hc). rewrite E in *.
  cbn [String.append] in *. cbn [parse_value].
  assert (Hn : Ascii.eqb c "n" = false /\ Ascii.eqb c dquote = false
               /\ Ascii.eqb c "[" = false /\ Ascii.eqb c "{" = false).
  { destruct Hc as [-> | Hc]; [repeat split; reflexivity |].
    repeat split;
      match goal with
      | |- Ascii.eqb c ?x = false =>
          destruct (Ascii.eqb_spec c x); [subst c; discriminate | reflexivity]
      end. }
  destruct Hn as (-> & -> & -> & ->). now rewrite Hscan.
Qed.

Lemma parse_value_list f s :
  parse_value (S f) (String "[" s)
  = match expect "]" s with
    | Some r' => Some (PList [], r')
    | None =>
        match parse_elements f s with
        | Some (l, r') => Some (PList l, r')
        | None => None
        end
    end.
Proof. reflexivity. Qed.

Lemma parse_value_dict f s :
  parse_value (S f) (String "{" s)
  = match expect "}" s with
    | Some r' => Some (PDict [], r')
    | None =>
        match parse_members f s with
        | Some (d, r') => Some (PDict d, r')
        | None => None
        end
    end.
Proof. reflexivity. Qed.

Lemma parse_members_key f k s :
  parse_members (S f) (dumps_str k +:+ ": " +:+ s)
  = match parse_value f s with
    | Some (v, r3) =>
        match expect "}" r3 with
        | Some r' => Some ([(KStr k, v)], r')
        | None =>
            match expect ", " r3 with
            | Some r' =>
                match parse_members f r' with
                | Some (d, r'') => Some ((KStr k, v) :: d, r'')
                | None => None
                end
            | None => None
            end
        end
    | None => None
    end.
Proof.
  rewrite dumps_str_app. cbn [parse_members].
  change (Ascii.eqb dquote dquote) with true. cbn iota.
  rewrite scan_string_escape. reflexivity.
Qed.

(** What [dumps] writes never starts with a closing bracket. *)
Lemma expect_bracket_dumps v x : expect "]" (dumps v +:+ x) = None.
Proof.
  destruct v as [ | n | s | l | d ]; try reflexivity.
  cbn [dumps]. destruct (str_of_int_head n) as (c & r & -> & [-> | Hc]); [reflexivity |].
  cbn [String.append expect].
  destruct (Ascii.eqb_spec "]" c); [subst c; discriminate | reflexivity].
Qed.

Lemma elements_read_back (l : list pyval) :
  Forall reads_back l -> forallb str_keys l = true -> l <> [] ->
  forall fuel rest,
    list_sum (map (fun x => S (vsize x)) l) <= fuel ->
    parse_elements fuel (PyStr.join ", " (map dumps l) +:+ String "]" rest)
    = Some (l, rest).
Proof.
  induction 1 as [|v l Hv Hl IH]; intros Hk Hne fuel rest Hfuel; [congruence |].
  cbn [forallb] in Hk. apply andb_prop in Hk as [Hkv Hkl].
  cbn [map list_sum fold_right] in Hfuel.
  destruct fuel as [|f]; [lia |]. cbn [parse_elements].
  destruct l as [|w l].
  - cbn [map]. unfold PyStr.join. cbn [String.concat].
    rewrite (Hv Hkv f (String "]" rest)) by (reflexivity || lia). reflexivity.
  - cbn [map]. rewrite join_two, !str_app_assoc.
    rewrite (Hv Hkv f) by (reflexivity || lia).
    change (expect "]" (", " +:+ ?x)) with (@None string).
    cbn [String.append expect]. change (Ascii.eqb "," ",") with true.
    change (Ascii.eqb " " " ") with true. cbn iota.
    change (dumps w :: map dumps l) with (map dumps (w :: l)).
    rewrite IH by (assumption || discriminate || (cbn [map list_sum fold_right] in *; lia)).
    reflexivity.
Qed.

Lemma members_read_back (d : list (pykey * pyval)) :
  Forall (fun kv => reads_back (snd kv)) d ->
  forallb (fun kv => match fst kv with KStr _ => str_keys (snd kv) | KInt _ => false end) d
  = true ->
  d <> [] ->
  forall fuel rest,
    list_sum (map (fun kv => S (vsize (snd kv))) d) <= fuel ->
    parse_members fuel
      (PyStr.join ", " (map (fun kv => dumps_key (fst kv) +:+ ": " +:+ dumps (snd kv)) d)
       +:+ String "}" rest)
    = Some (d, rest).
Proof.
  induction 1 as [|[k v] d Hv Hd IH]; intros Hk Hne fuel rest Hfuel; [congruence |].
  cbn [forallb fst snd] in Hk. apply andb_prop in Hk as [Hkv Hkd].
  destruct k as [k | n]; [| discriminate].
  cbn [map list_sum fold_right fst snd] in Hfuel. cbn [snd] in Hv.
  destruct fuel as [|f]; [lia |].
  destruct d as [|e d].
  - cbn [map fst snd dumps_key]. unfold PyStr.join. cbn [String.concat].
    rewrite !str_app_assoc, parse_members_key.
    rewrite (Hv Hkv f (String "}" rest)) by (reflexivity || lia). reflexivity.
  - cbn [map fst snd dumps_key]. rewrite join_two, !str_app_assoc, parse_members_key.
    rewrite (Hv Hkv f) by (reflexivity || lia).
    cbn [String.append expect]. change (Ascii.eqb "}" ",") with false.
    change (Ascii.eqb "," ",") with true. change (Ascii.eqb " " " ") with true.
    cbn iota.
    change ((dumps_key (fst e) +:+ ": " +:+ dumps (snd e))
              :: map (fun kv => dumps_key (fst kv) +:+ ": " +:+ dumps (snd kv)) d)
      with (map (fun kv => dumps_key (fst kv) +:+ ": " +:+ dumps (snd kv)) (e :: d)).
    rewrite IH by (assumption || discriminate || (cbn [map list_sum fold_right] in *; lia)).
    reflexivity.
Qed.

Lemma dumps_reads_back (v : pyval) : reads_back v.
Proof.
  induction v as [ | n | s | l IH | d IH ] using pyval_nested_ind;
    intros Hk fuel rest Hfuel Hrest; (destruct fuel as [|f]; [cbn in Hfuel; lia |]).
  - apply parse_value_none.
  - now apply parse_value_int.
  - apply parse_value_str.
  - rewrite dumps_list_app, parse_value_list. destruct l as [|v l]; [reflexivity |].
    cbn [map]. change (dumps v :: map dumps l) with (map dumps (v :: l)).
    replace (expect "]" (PyStr.join ", " (map dumps (v :: l)) +:+ String "]" rest))
      with (@None string).
    + rewrite (elements_read_back (v :: l) IH Hk) by (discriminate || (cbn [vsize map list_sum fold_right] in *; lia)).
      reflexivity.
    + symmetry. destruct l as [|w l]; cbn [map].
      * unfold PyStr.join. cbn [String.concat]. apply expect_bracket_dumps.
      * rewrite join_two, !str_app_assoc. apply expect_bracket_dumps.
  - rewrite dumps_dict_app, parse_value_dict. destruct d as [|[k v] d]; [reflexivity |].
    cbn [str_keys] in Hk.
    rewrite (members_read_back _ IH Hk) by (discriminate || (cbn [vsize map list_sum fold_right] in *; lia)).
    replace (expect "}" _) with (@None string); [reflexivity |].
    cbn [forallb fst] in Hk. destruct k as [k | n]; [| discriminate].
    symmetry. destruct d as [|e d]; cbn [map fst snd dumps_key].
    + unfold PyStr.join. cbn [String.concat]. now rewrite !str_app_assoc, dumps_str_app.
    + rewrite join_two, !str_app_assoc. now rewrite dumps_str_app.
Qed.

(** ** Enough fuel *)

Lemma join_length_bound {A} (size : A -> nat) (enc : A -> string) (l : list A) :
  Forall (fun x => size x <= String.length (enc x)) l ->
  list_sum (map (fun x => S (size x)) l)
  <= S (String.length (PyStr.join ", " (map enc l))).
Proof.
  induction 1 as [|x l Hx Hl IH]; [cbn; lia |].
  destruct l as [|y l].
  - cbn [map list_sum fold_right]. unfold PyStr.join. cbn [String.concat]. lia.
  - cbn [map] in *. rewrite join_two, !str_length_app.
    cbn [list_sum fold_right String.length] in *. lia.
Qed.

Lemma vsize_le_length (v : pyval) : vsize v <= String.length (dumps v).
Proof.
  induction v as [ | n | s | l IH | d IH ] using pyval_nested_ind.
  - cbn. lia.
  - cbn [vsize dumps]. destruct (str_of_int_head n) as (c & r & -> & _).
    cbn [String.length]. lia.
  - cbn. lia.
  - cbn [vsize dumps]. rewrite !str_length_app. cbn [String.length].
    pose proof (join_length_bound vsize dumps l IH). lia.
  - cbn [vsize dumps]. rewrite !str_length_app. cbn [String.length].
    pose proof (join_length_bound (fun kv => vsize (snd kv))
                  (fun kv => dumps_key (fst kv) +:+ ": " +:+ dumps (snd kv)) d) as H.
    cbv beta in H.
    assert (Hd : Forall (fun kv : pykey * pyval =>
                   vsize (snd kv)
                   <= String.length (dumps_key (fst kv) +:+ ": " +:+ dumps (snd kv))) d).
    { eapply Forall_impl; [exact IH |]. intros kv Hkv. cbv beta in *.
      rewrite !str_length_app. lia. }
    specialize (H Hd). lia.
Qed.

Lemma loads_dumps (v : pyval) : str_keys v = true -> loads (dumps v) = Some v.
Proof.
  intros Hk. unfold loads.
  pose proof (dumps_reads_back v Hk (S (String.length (dumps v))) "") as H.
  rewrite str_app_nil_r in H. rewrite H; [reflexivity | | reflexivity].
  pose proof (vsize_le_length v). lia.
Qed.

(** ** Questions *)

Lemma all_some_map {A} (f : pyval -> option A) (g : A -> pyval) (l : list A) :
  (forall x, f (g x) = Some x) -> all_some (map f (map g l)) = Some l.
Proof.
  intros Hfg. induction l as [|x l IH]; [reflexivity |].
  cbn [map all_some]. now rewrite Hfg, IH.
Qed.

Lemma from_dict_to_dict (q : Question) : from_dict (to_dict q) = Some q.
Proof.
  destruct q as [t ty a c d m]. unfold to_dict, from_dict. cbn [text type answers
    correct_answers distractors metadata key_is as_str as_list].
  rewrite !String.eqb_refl. cbn [andb].
  rewrite !all_some_map by reflexivity. now destruct m.
Qed.

Lemma str_keys_strings (l : list string) : forallb str_keys (map PStr l) = true.
Proof. induction l; [reflexivity | assumption]. Qed.

Lemma str_keys_ints (l : list Z) : forallb str_keys (map PInt l) = true.
Proof. induction l; [reflexivity | assumption]. Qed.

Lemma str_keys_to_dict (q : Question) : str_keys (to_dict q) = metadata_str_keys q.
Proof.
  unfold to_dict, metadata_str_keys. cbn [str_keys forallb fst snd].
  rewrite !str_keys_strings, str_keys_ints. cbn [andb].
  destruct (metadata q); [apply andb_true_r | reflexivity].
Qed.

Lemma loads_questions_dumps (questions : list Question) :
  Forall (fun q => metadata_str_keys q = true) questions ->
  loads_questions (dumps (PList (map to_dict questions))) = Some questions.
Proof.
  intros H. unfold loads_questions. rewrite loads_dumps.
  - unfold as_list. apply all_some_map, from_dict_to_dict.
  - cbn [str_keys]. induction H as [|q qs Hq _ IH]; [reflexivity |].
    cbn [map forallb]. now rewrite str_keys_to_dict, Hq, IH.
Qed.

(** C8, as the code has it: when the metadata of every question is [None]
    or a dictionary made of [None], integers, strings, lists and
    dictionaries, all of whose keys, at every depth, are strings, the
    structured-data export is the text that [json.dumps] writes for the
    list of the questions' dictionaries, and reading that text back
    rebuilds the same questions, field for field. *)
Theorem export_json_round_trip (questions : list Question) :
  Forall (fun q => metadata_str_keys q = true) questions ->
  StreamlitQuizApp.export_questions questions "json"
  = Return (Some (dumps (PList (map to_dict questions))))
  /\ loads_questions (dumps (PList (map to_dict questions))) = Some questions.
Proof. intros H. split; [reflexivity | now apply loads_questions_dumps]. Qed.

Lemma export_json_round_trip_witness :
  StreamlitQuizApp.export_questions gift_scenario "json"
  = Return (Some (dumps (PList (map to_dict gift_scenario))))
  /\ loads_questions (dumps (PList (map to_dict gift_scenario))) = Some gift_scenario.
Proof. apply export_json_round_trip. repeat constructor. Defined.

(** C8 fails as stated: a question whose metadata has the integer key [1]
    and the question that has the string key [1] instead are different,
    their exports are the same text, and reading it back gives the
    second one. *)
Lemma export_json_counterexample :
  [mkQuestion "Q" "short_text" [] [0%Z] [] (Some [(KInt 1, PStr "a")])]
  <> [mkQuestion "Q" "short_text" [] [0%Z] [] (Some [(KStr "1", PStr "a")])]
  /\ StreamlitQuizApp.export_questions
       [mkQuestion "Q" "short_text" [] [0%Z] [] (Some [(KInt 1, PStr "a")])] "json"
     = StreamlitQuizApp.export_questions
         [mkQuestion "Q" "short_text" [] [0%Z] [] (Some [(KStr "1", PStr "a")])] "json"
  /\ match StreamlitQuizApp.export_questions
             [mkQuestion "Q" "short_text" [] [0%Z] [] (Some [(KInt 1, PStr "a")])] "json"
     with
     | Return (Some s) =>
         loads_questions s
         = Some [mkQuestion "Q" "short_text" [] [0%Z] [] (Some [(KStr "1", PStr "a")])]
     | _ => False
     end.
Proof. split; [discriminate | split; reflexivity]. Qed.

End RoundTrip.

(** * Generated questions and scenarios *)

Section Scenarios.

Import QuizGenerator StreamlitQuizApp.

(** Every question built by the generator names a correct option and has
    string-keyed metadata, so both exports above apply to its results. *)
Lemma from_template_well_formed sentences q :
  from_template sentences q ->
  correct_answers q <> [] /\ metadata_str_keys q = true.
Proof. intros (s & _ & [-> | ->]); split; (discriminate || reflexivity). Qed.

(** The loop of the flashcard export on questions whose correct option is
    the first one: the blocks of the multiple-choice questions, each with
    its position in the list. *)
Lemma gift_loop_first_option (questions : list Question) :
  Forall (fun q => correct_answers q = [0%Z]) questions ->
  forall i acc,
    gift_loop i questions acc
    = Return (acc ++ concat (map (fun iq : Z * Question => gift_block (iq.1 + 1) iq.2 0)
                               (List.filter (fun iq => is_multiple_choice iq.2)
                                  (enumerate_from i questions)))).
Proof.
  induction 1 as [|q qs Hq _ IH]; intros i acc.
  - cbn [gift_loop enumerate_from List.filter map concat]. now rewrite app_nil_r.
  - cbn [gift_loop enumerate_from List.filter]. unfold gift_step, is_multiple_choice.
    cbn [snd]. destruct (String.eqb (type q) "multiple_choice").
    + rewrite list_getitem_head, Hq. cbn [head rbind map concat fst snd].
      rewrite IH. f_equal. unfold gift_block. rewrite <- !app_assoc. reflexivity.
    + cbn [rbind]. apply IH.
Qed.

(** X16: the flashcard export of a result of [generate_quiz] does not
    raise.  Its lines are, for each multiple-choice question of the result
    in order and for no other question, the block of that question: the
    marker line with the question's position in the result counted from
    one, the line [$A=1], the answer options, the distractors and the
    closing line.  There is one such block per multiple-choice
    question. *)
Lemma generated_gift_export text counts st questions st' :
  generate_quiz text counts st = Return (questions, st') ->
  export_questions questions "gift"
  = Return (Some (PyStr.join nl (concat (first_option_blocks questions))))
  /\ length (first_option_blocks questions)
     = length (List.filter is_multiple_choice questions).
Proof.
  intros H. apply generate_quiz_templates in H. unfold first_option_blocks.
  split; [| rewrite length_map; apply filter_enumerate_length].
  unfold export_questions. simpl String.eqb.
  rewrite gift_loop_first_option; [reflexivity |].
  eapply Forall_impl; [exact H |].
  now intros q (s & _ & [-> | ->]).
Qed.

Example first_option_blocks_ex :
  first_option_blocks [short_text_question "The sky is blue";
                       multiple_choice_question "Water is wet"]
  = [ [ "::Q2::What best describes: 'Water is wet'?{"; "$A=1";
        "Accurate"; "Partially Accurate"; "Incorrect";
        "Accurate"; "Accurate but faster"; "Not Accurate"; "Accurate and slower";
        "}" ] ].
Proof. reflexivity. Qed.

Lemma generated_json_round_trip text counts st questions st' :
  generate_quiz text counts st = Return (questions, st') ->
  JsonLoads.loads_questions (dumps (PList (map to_dict questions))) = Some questions.
Proof.
  intros H. apply generate_quiz_templates in H.
  apply loads_questions_dumps.
  eapply Forall_impl; [exact H |]. intros q Hq.
  now apply from_template_well_formed in Hq.
Qed.

(** X15: every multiple-choice question of every result repeats its correct
    answer among its distractors. *)
Lemma generated_multiple_choice_overlap text counts st questions st' :
  generate_quiz text counts st = Return (questions, st') ->
  Forall (fun q => type q = "multiple_choice" ->
                   correct_answers q = [0%Z]
                   /\ answers q !! 0%nat = Some "Accurate"
                   /\ In "Accurate" (distractors q)) questions.
Proof.
  intros H. apply generate_quiz_templates in H.
  eapply Forall_impl; [exact H |].
  intros q (s & _ & [-> | ->]); [discriminate |].
  intros _. repeat split. now left.
Qed.

(** The scenario of two sentences, one short-text and one multiple-choice
    question, with draws 0 then 1. *)
Example generate_quiz_two_sentences :
  generate_quiz "The sky is blue. Water is wet."
    {[ "short_text" := 1%Z; "multiple_choice" := 1%Z ]}
    (mkRandomState (fun n => n) 0)
  = Return ([short_text_question "The sky is blue";
             multiple_choice_question "Water is wet"],
            mkRandomState (fun n => n) 2).
Proof. reflexivity. Qed.

Example short_text_question_ex :
  short_text_question "The sky is blue"
  = mkQuestion "What is the main idea of: 'The sky is blue'?" "short_text" [] [0%Z]
      ["blue is sky the"; "blue is sky the"; "blue is sky the"]
      (Some [(KStr "source", PStr "document")]).
Proof. reflexivity. Qed.

Example gift_export_ex :
  export_questions gift_scenario "gift"
  = Return (Some (PyStr.join nl
      [ "::Q1::What best describes: 'The sky is blue'?{"; "$A=1";
        "Accurate"; "Partially Accurate"; "Incorrect";
        "Accurate"; "Accurate but faster"; "Not Accurate"; "Accurate and slower"; "}";
        "::Q3::What best describes: 'Water is wet'?{"; "$A=1";
        "Accurate"; "Partially Accurate"; "Incorrect";
        "Accurate"; "Accurate but faster"; "Not Accurate"; "Accurate and slower"; "}" ])).
Proof. reflexivity. Qed.

(** A multiple-choice question without a correct option makes the
    flashcard export raise at the index line. *)
Example gift_export_no_correct_option :
  export_questions [mkQuestion "Q" "multiple_choice" ["a"] [] [] None] "gift"
  = Raise IndexError.
Proof. reflexivity. Qed.

Example txt_export_ex :
  export_questions [short_text_question "Water is wet"] "txt"
  = Return (Some ("What is the main idea of: 'Water is wet'?" +:+ nl +:+ "Answers: ")).
Proof. reflexivity. Qed.

Example missing_count_key :
  generate_quiz "The sky is blue." {[ "short_text" := 0%Z ]} (mkRandomState (fun n => n) 0)
  = Raise KeyError.
Proof. reflexivity. Qed.

End Scenarios.

(** * Laws of the segmenter and of the sentence statistics *)

Section SegmenterLaws.

Import TextProcessor.

Lemma split_app sep a b :
  PyStr.split sep (a +:+ String sep b) = PyStr.split sep a ++ PyStr.split sep b.
Proof.
  unfold PyStr.split. induction a as [|c a IH].
  - cbn [String.append PyStr.split_go]. rewrite Ascii.eqb_refl.
    destruct (PyStr.split_go sep b). reflexivity.
  - cbn [String.append PyStr.split_go].
    destruct (PyStr.split_go sep (a +:+ String sep b)) as [h t].
    destruct (PyStr.split_go sep a) as [h' t'].
    destruct (PyStr.split_go sep b) as [h'' t''].
    injection IH as -> ->.
    destruct (Ascii.eqb c sep); reflexivity.
Qed.

Lemma split_length sep s :
  length (PyStr.split sep s) = S (count_char sep s).
Proof.
  unfold PyStr.split. induction s as [|c s IH]; [reflexivity |].
  cbn [PyStr.split_go count_char]. destruct (PyStr.split_go sep s) as [h t].
  destruct (Ascii.eqb c sep); cbn [length] in *; lia.
Qed.

Lemma split_pieces_no_sep sep s :
  Forall (fun p => PyStr.contains sep p = false) (PyStr.split sep s).
Proof.
  unfold PyStr.split. induction s as [|c s IH].
  - repeat constructor.
  - cbn [PyStr.split_go]. destruct (PyStr.split_go sep s) as [h t].
    apply Forall_cons_1 in IH as [Hh Ht].
    destruct (Ascii.eqb c sep) eqn:E.
    + repeat constructor; assumption.
    + constructor; [| assumption]. cbn [PyStr.contains]. now rewrite E, Hh.
Qed.

Lemma contains_app x a b :
  PyStr.contains x (a +:+ b) = PyStr.contains x a || PyStr.contains x b.
Proof.
  induction a as [|c a IH]; [reflexivity |].
  cbn [String.append PyStr.contains]. now rewrite IH, orb_assoc.
Qed.

Lemma strip_no_sep x s :
  PyStr.contains x s = false -> PyStr.contains x (PyStr.strip s) = false.
Proof.
  intros H. destruct (strip_decomp s) as (l & r & E). rewrite E in H.
  rewrite !contains_app in H.
  apply orb_false_elim in H as [_ H]. now apply orb_false_elim in H as [H _].
Qed.

Lemma strip_idem s : PyStr.strip (PyStr.strip s) = PyStr.strip s.
Proof.
  unfold PyStr.strip at 1. now rewrite strip_lstrip_fixed, strip_rstrip_fixed.
Qed.

Lemma blank_strip_empty s : PyStr.strip s = "" -> PyStr.is_blank s = true.
Proof.
  intros H. destruct (PyStr.is_blank s) eqn:E; [reflexivity |].
  now apply strip_nonblank in E.
Qed.

Lemma extract_sentences_no_sep s :
  PyStr.contains "." s = false ->
  extract_sentences s = if PyStr.is_empty (PyStr.strip s) then [] else [PyStr.strip s].
Proof.
  intros H. unfold extract_sentences, PyStr.split.
  rewrite (split_go_no_sep _ _ H). cbn [List.filter]. unfold PyStr.truthy.
  now destruct (PyStr.is_empty (PyStr.strip s)).
Qed.

(** X1: the sentences of two texts put together with a period between them
    are the sentences of the first followed by those of the second; so a
    period at the end of a text adds no sentence. *)
Theorem extract_sentences_app (a b : string) :
  extract_sentences (a +:+ "." +:+ b) = extract_sentences a ++ extract_sentences b
  /\ extract_sentences (a +:+ ".") = extract_sentences a.
Proof.
  assert (H : forall b, extract_sentences (a +:+ "." +:+ b)
                        = extract_sentences a ++ extract_sentences b).
  { intros b'. unfold extract_sentences.
    change (a +:+ "." +:+ b') with (a +:+ String "." b').
    now rewrite split_app, List.filter_app, map_app. }
  split; [apply H |].
  specialize (H ""). cbn [String.append] in H. rewrite H.
  change (extract_sentences "") with (@nil string). apply app_nil_r.
Qed.

(** X2: a sentence of a text has no period, and is the one sentence of itself. *)
Theorem extract_sentences_fixed (text s : string) :
  In s (extract_sentences text) ->
  PyStr.contains "." s = false /\ extract_sentences s = [s].
Proof.
  intros H. unfold extract_sentences in H.
  apply in_map_iff in H as (p & <- & Hp). apply filter_In in Hp as [Hin Hp].
  pose proof (split_pieces_no_sep "." text) as Hall.
  rewrite List.Forall_forall in Hall. specialize (Hall p Hin).
  assert (Hs : PyStr.contains "." (PyStr.strip p) = false) by now apply strip_no_sep.
  split; [exact Hs |].
  rewrite (extract_sentences_no_sep _ Hs), strip_idem.
  unfold PyStr.truthy in Hp. now destruct (PyStr.is_empty (PyStr.strip p)).
Qed.

Lemma extract_sentences_fixed_witness :
  PyStr.contains "." "Water is wet" = false
  /\ extract_sentences "Water is wet" = ["Water is wet"].
Proof.
  apply (extract_sentences_fixed "The sky is blue. Water is wet." "Water is wet").
  right; left; reflexivity.
Defined.

(** X3: there is at most one sentence more than there are periods. *)
Theorem extract_sentences_count (text : string) :
  length (extract_sentences text) <= S (count_char "." text).
Proof.
  unfold extract_sentences. rewrite length_map, <- split_length.
  apply List.filter_length_le.
Qed.

(** ** Average sentence length *)

Lemma sum_from (l : list Z) (a : Z) : fold_left Z.add l a = (a + PyNum.sum l)%Z.
Proof.
  unfold PyNum.sum. revert a. induction l as [|x l IH]; intros a; cbn [fold_left].
  - lia.
  - rewrite IH, (IH (0 + x)%Z). lia.
Qed.

Lemma sum_cons (x : Z) (l : list Z) : PyNum.sum (x :: l) = (x + PyNum.sum l)%Z.
Proof. unfold PyNum.sum at 1. cbn [fold_left]. rewrite sum_from. lia. Qed.

Lemma sum_at_least_len {A} (f : A -> Z) (l : list A) :
  Forall (fun x => (1 <= f x)%Z) l -> (PyNum.len l <= PyNum.sum (map f l))%Z.
Proof.
  unfold PyNum.len. induction 1 as [|x l Hx _ IH]; [reflexivity |].
  cbn [map length]. rewrite sum_cons. lia.
Qed.

Lemma words_go_blank s :
  PyStr.is_blank s = false ->
  let '(h, t) := PyStr.words_go s in h <> "" \/ t <> [].
Proof.
  induction s as [|c s IH]; [discriminate |].
  cbn [PyStr.is_blank PyStr.words_go]. intros H.
  destruct (PyStr.words_go s) as [h t].
  destruct (PyStr.isspace c); [| left; discriminate].
  right. destruct (IH H) as [Hh | Ht].
  - destruct h; [congruence | discriminate].
  - now destruct (PyStr.is_empty h).
Qed.

Lemma split_ws_nonblank s : PyStr.is_blank s = false -> PyStr.split_ws s <> [].
Proof.
  intros H. apply words_go_blank in H. unfold PyStr.split_ws.
  destruct (PyStr.words_go s) as [h t].
  destruct h; cbn [PyStr.is_empty]; [| discriminate].
  now destruct H.
Qed.

Lemma sentence_nonblank text s :
  In s (extract_sentences text) -> PyStr.is_blank s = false.
Proof.
  intros H. unfold extract_sentences in H.
  apply in_map_iff in H as (p & <- & Hp). apply filter_In in Hp as [_ Hp].
  destruct (PyStr.is_blank (PyStr.strip p)) eqn:Hb; [| reflexivity].
  apply strip_blank in Hb. rewrite strip_idem in Hb. now rewrite Hb in Hp.
Qed.

(** X4: [analyze_complexity] raises [ZeroDivisionError] exactly when the text
    has no sentence; a blank text is such a text. *)
Theorem analyze_complexity_zero_division (text : string) :
  (analyze_complexity text = PyNum.ZeroDivisionError <-> extract_sentences text = [])
  /\ (PyStr.is_blank text = true -> analyze_complexity text = PyNum.ZeroDivisionError).
Proof.
  assert (H : analyze_complexity text = PyNum.ZeroDivisionError
              <-> extract_sentences text = []).
  { unfold analyze_complexity, PyNum.len.
    destruct (extract_sentences text) as [|s l]; [split; reflexivity |].
    split; [| discriminate]. cbn [length]. unfold PyNum.truediv.
    destruct (Z.of_nat (S (length l))) eqn:E; [lia | discriminate ..]. }
  split; [exact H |].
  intros Hb. apply H. unfold extract_sentences, PyStr.split.
  rewrite (split_go_no_sep _ _ (blank_no_period _ Hb)). cbn [List.filter].
  unfold PyStr.truthy. now rewrite (strip_blank _ Hb).
Qed.

Lemma analyze_complexity_zero_division_witness :
  analyze_complexity "   " = PyNum.ZeroDivisionError.
Proof.
  apply (proj2 (analyze_complexity_zero_division "   ")). reflexivity.
Defined.

(** X5: when the text has a sentence, [analyze_complexity] returns the total
    number of words of the sentences over the number of sentences, and
    that average is at least one. *)
Theorem analyze_complexity_average (text : string) :
  extract_sentences text <> [] ->
  exists total count,
    analyze_complexity text = PyNum.Quotient (QArith_base.Qmake total count)
    /\ total = PyNum.sum (map (fun s => PyNum.len (PyStr.split_ws s))
                              (extract_sentences text))
    /\ Z.pos count = PyNum.len (extract_sentences text)
    /\ QArith_base.Qle (QArith_base.Qmake 1 1) (QArith_base.Qmake total count).
Proof.
  intros Hne. unfold analyze_complexity.
  assert (Hsum : (PyNum.len (extract_sentences text)
                  <= PyNum.sum (map (fun s => PyNum.len (PyStr.split_ws s))
                                    (extract_sentences text)))%Z).
  { apply sum_at_least_len. apply List.Forall_forall. intros s Hs.
    apply sentence_nonblank, split_ws_nonblank in Hs. unfold PyNum.len.
    destruct (PyStr.split_ws s); [congruence | cbn [length]; lia]. }
  revert Hsum. generalize (PyNum.sum (map (fun s => PyNum.len (PyStr.split_ws s))
                                          (extract_sentences text))) as total.
  intros total Hsum.
  assert (Hpos : (0 < PyNum.len (extract_sentences text))%Z).
  { unfold PyNum.len. destruct (extract_sentences text); [congruence | cbn [length]; lia]. }
  unfold PyNum.truediv. destruct (PyNum.len (extract_sentences text)) as [|p|p] eqn:E;
    [lia | | lia].
  exists total, p. repeat split.
  unfold QArith_base.Qle. cbn [QArith_base.Qnum QArith_base.Qden]. lia.
Qed.

Lemma analyze_complexity_average_witness :
  exists total count,
    analyze_complexity "The sky is blue. Water is wet."
    = PyNum.Quotient (QArith_base.Qmake total count)
    /\ total = PyNum.sum (map (fun s => PyNum.len (PyStr.split_ws s))
                              (extract_sentences "The sky is blue. Water is wet."))
    /\ Z.pos count = PyNum.len (extract_sentences "The sky is blue. Water is wet.")
    /\ QArith_base.Qle (QArith_base.Qmake 1 1) (QArith_base.Qmake total count).
Proof.
  apply (analyze_complexity_average "The sky is blue. Water is wet."). discriminate.
Defined.

Example analyze_complexity_ex :
  analyze_complexity "The sky is blue. Water is wet."
  = PyNum.Quotient (QArith_base.Qmake 7 2).
Proof. reflexivity. Qed.

End SegmenterLaws.

(** * Laws of the distractor synthesis *)

Section DistractorLaws.

Import DistractorGenerator.

Lemma lower_char_idem c : PyStr.lower_char (PyStr.lower_char c) = PyStr.lower_char c.
Proof. destruct c as [[|] [|] [|] [|] [|] [|] [|] [|]]; reflexivity. Qed.

Lemma lower_idem s : PyStr.lower (PyStr.lower s) = PyStr.lower s.
Proof.
  induction s as [|c s IH]; [reflexivity |].
  cbn [PyStr.lower]. now rewrite lower_char_idem, IH.
Qed.

Lemma lower_app a b : PyStr.lower (a +:+ b) = PyStr.lower a +:+ PyStr.lower b.
Proof.
  induction a as [|c a IH]; [reflexivity |].
  cbn [String.append PyStr.lower]. now rewrite IH.
Qed.

Lemma lower_join (l : list string) :
  PyStr.lower (PyStr.join " " l) = PyStr.join " " (map PyStr.lower l).
Proof.
  induction l as [|x [|y l] IH]; [reflexivity | reflexivity |].
  cbn [map] in *. rewrite !join_two, !lower_app, IH. reflexivity.
Qed.

(** The words that [str.split] returns are words. *)
Lemma words_go_words s :
  no_space (fst (PyStr.words_go s)) = true
  /\ Forall (fun w => is_word w = true) (snd (PyStr.words_go s)).
Proof.
  induction s as [|c s [Hh Ht]]; [split; [reflexivity | constructor] |].
  cbn [PyStr.words_go]. destruct (PyStr.words_go s) as [h t]. cbn [fst snd] in *.
  destruct (PyStr.isspace c) eqn:Hc; cbn [fst snd].
  - split; [reflexivity |]. destruct h; cbn [PyStr.is_empty]; [assumption |].
    constructor; [| assumption]. unfold is_word. now rewrite Hh.
  - split; [| assumption]. cbn [no_space]. now rewrite Hc, Hh.
Qed.

Lemma split_ws_words s : Forall (fun w => is_word w = true) (PyStr.split_ws s).
Proof.
  unfold PyStr.split_ws. destruct (words_go_words s) as [Hh Ht].
  destruct (PyStr.words_go s) as [h t]. cbn [fst snd] in *.
  destruct h; cbn [PyStr.is_empty]; [assumption |].
  constructor; [| assumption]. unfold is_word. now rewrite Hh.
Qed.

Lemma words_go_word_app w r :
  no_space w = true ->
  PyStr.words_go (w +:+ r)
  = (w +:+ fst (PyStr.words_go r), snd (PyStr.words_go r)).
Proof.
  induction w as [|c w IH]; intros H.
  - cbn [String.append]. now destruct (PyStr.words_go r).
  - cbn [no_space] in H. apply andb_prop in H as [Hc Hw].
    cbn [String.append PyStr.words_go]. rewrite (IH Hw).
    apply negb_true_iff in Hc. now rewrite Hc.
Qed.

Lemma words_go_no_space w :
  no_space w = true -> PyStr.words_go w = (w, []).
Proof.
  intros H. pose proof (words_go_word_app w "" H) as E.
  rewrite !str_app_nil_r in E. exact E.
Qed.

(** Splitting words joined by single spaces gives the words back. *)
Lemma split_ws_join (l : list string) :
  Forall (fun w => is_word w = true) l ->
  PyStr.split_ws (PyStr.join " " l) = l.
Proof.
  unfold PyStr.split_ws.
  induction 1 as [|w l Hw Hl IH]; [reflexivity |].
  unfold is_word in Hw. apply andb_prop in Hw as [Hne Hns].
  destruct l as [|y l].
  - change (PyStr.join " " [w]) with w. rewrite (words_go_no_space _ Hns).
    destruct w; [discriminate | reflexivity].
  - rewrite join_two, (words_go_word_app _ _ Hns).
    change (" " +:+ PyStr.join " " (y :: l)) with (String " " (PyStr.join " " (y :: l))).
    cbn [PyStr.words_go]. change (PyStr.isspace " ") with true. cbn iota.
    destruct (PyStr.words_go (PyStr.join " " (y :: l))) as [h t]. cbn [fst snd].
    rewrite str_app_nil_r. destruct w; [discriminate |]. cbn [PyStr.is_empty].
    now rewrite IH.
Qed.

Lemma lower_words_fixed s :
  map PyStr.lower (PyStr.split_ws (PyStr.lower s)) = PyStr.split_ws (PyStr.lower s).
Proof.
  rewrite split_ws_lower, map_map. apply map_ext. intros w. apply lower_idem.
Qed.

(** X6: the distractor of a distractor is the answer itself, lower-cased and
    with its words separated by single spaces: reversing the words twice
    undoes the reversal. *)
Theorem short_answer_distractors_twice (correct d : string) (n m : Z) :
  In d (generate_short_answer_distractors correct n) ->
  generate_short_answer_distractors d m
  = repeat (PyStr.join " " (PyStr.split_ws (PyStr.lower correct))) (Z.to_nat m).
Proof.
  rewrite !short_answer_repeat. intros H. apply repeat_spec in H. subst d.
  rewrite lower_join, map_rev, lower_words_fixed.
  rewrite split_ws_join, rev_involutive; [reflexivity |].
  apply List.Forall_rev, split_ws_words.
Qed.

Lemma short_answer_distractors_twice_witness :
  generate_short_answer_distractors "blue is sky the" 2
  = repeat (PyStr.join " " (PyStr.split_ws (PyStr.lower "The  Sky is BLUE")))
           (Z.to_nat 2).
Proof.
  apply (short_answer_distractors_twice "The  Sky is BLUE" "blue is sky the" 1 2).
  left. reflexivity.
Defined.

(** X7: a distractor has no upper-case letter, no whitespace at either end and
    no two adjacent spaces: it is its own lower-casing and the join of its
    own words. *)
Theorem short_answer_distractors_normal (correct d : string) (n : Z) :
  In d (generate_short_answer_distractors correct n) ->
  PyStr.lower d = d /\ PyStr.join " " (PyStr.split_ws d) = d.
Proof.
  rewrite short_answer_repeat. intros H. apply repeat_spec in H. subst d. split.
  - now rewrite lower_join, map_rev, lower_words_fixed.
  - rewrite split_ws_join; [reflexivity |]. apply List.Forall_rev, split_ws_words.
Qed.

Lemma short_answer_distractors_normal_witness :
  PyStr.lower "blue is sky the" = "blue is sky the"
  /\ PyStr.join " " (PyStr.split_ws "blue is sky the") = "blue is sky the".
Proof.
  apply (short_answer_distractors_normal "The  Sky is BLUE" "blue is sky the" 1).
  left. reflexivity.
Defined.

(** X8: for a count of options that is zero or negative the slice bound is
    negative and counts from the end of the three variations: the result
    has [3 + k] entries and at least the correct answer.  Whatever the
    count, the result is a beginning of the correct answer followed by the
    three variations, it is not empty, and its entries are pairwise
    distinct. *)
Theorem multiple_choice_distractors_any_count (correct : string) (k : Z) :
  let pool := [correct; correct +:+ " but faster"; "Not " +:+ correct;
               correct +:+ " and slower"] in
  generate_multiple_choice_distractors correct k
  = firstn (Z.to_nat (if (1 <=? k)%Z then Z.min k 4 else Z.max 1 (3 + k))) pool
  /\ NoDup (generate_multiple_choice_distractors correct k).
Proof.
  intros pool.
  assert (E : generate_multiple_choice_distractors correct k
              = firstn (Z.to_nat (if (1 <=? k)%Z then Z.min k 4 else Z.max 1 (3 + k))) pool).
  { unfold generate_multiple_choice_distractors, PyStr.slice_to. subst pool.
    destruct (1 <=? k)%Z eqn:Hk.
    - apply Z.leb_le in Hk.
      destruct (0 <=? k - 1)%Z eqn:E; [| apply Z.leb_gt in E; lia].
      destruct (Z.to_nat (k - 1)) as [|[|[|j]]] eqn:Hj.
      + replace (Z.min k 4) with 1%Z by lia. reflexivity.
      + replace (Z.min k 4) with 2%Z by lia. reflexivity.
      + replace (Z.min k 4) with 3%Z by lia. reflexivity.
      + replace (Z.min k 4) with 4%Z by lia. now destruct j.
    - apply Z.leb_gt in Hk.
      destruct (0 <=? k - 1)%Z eqn:E; [apply Z.leb_le in E; lia |].
      cbn [length].
      destruct (Z.to_nat (- (k - 1))) as [|[|[|j]]] eqn:Hj.
      + lia.
      + replace (Z.max 1 (3 + k)) with 3%Z by lia. reflexivity.
      + replace (Z.max 1 (3 + k)) with 2%Z by lia. reflexivity.
      + replace (Z.max 1 (3 + k)) with 1%Z by lia. reflexivity. }
  split; [exact E |]. rewrite E.
  eapply sublist_NoDup; [apply multiple_choice_pool_NoDup | apply sublist_take].
Qed.

Example multiple_choice_distractors_negative :
  generate_multiple_choice_distractors "X" (-1) = ["X"; "X but faster"]
  /\ generate_multiple_choice_distractors "X" (-5) = ["X"].
Proof. split; reflexivity. Qed.

End DistractorLaws.

(** * Laws of the question assembly *)

Section AssemblyLaws.

Import QuizGenerator StreamlitQuizApp.

Lemma advance_zero st : advance st 0 = st.
Proof. destruct st as [d p]. unfold advance. cbn [draws pos]. now rewrite Nat.add_0_r. Qed.

Lemma choice_nonempty {A} (seq : list A) st :
  seq <> [] -> exists x, In x seq /\ choice seq st = Return (x, advance st 1).
Proof.
  intros Hne. destruct seq as [|y l]; [congruence |].
  destruct (choice (y :: l) st) as [[x st']|e] eqn:E; [| discriminate].
  exists x. split; [now apply choice_In in E |].
  unfold choice in E. injection E as <- <-. unfold choice, advance.
  now rewrite Nat.add_1_r.
Qed.

(** A loop that draws [n] times from a non-empty sequence returns: it adds
    one element per draw, in order, and consumes [n] draws. *)
Lemma for_range_choice_run {A B} (seq : list A) (mk : A -> B) :
  seq <> [] ->
  forall n acc st,
  exists picked,
    length picked = n /\ Forall (fun x => In x seq) picked
    /\ for_range n (fun acc => x <- choice seq ;; ret (acc ++ [mk x])) acc st
       = Return (acc ++ map mk picked, advance st n).
Proof.
  intros Hne. induction n as [|n IH]; intros acc st.
  - exists []. cbn [for_range map]. rewrite app_nil_r, advance_zero.
    repeat split. constructor.
  - destruct (choice_nonempty seq st Hne) as (x & Hx & Hc).
    destruct (IH (acc ++ [mk x]) (advance st 1)) as (picked & Hlen & Hin & Hrun).
    exists (x :: picked). split; [cbn [length]; now rewrite Hlen |].
    split; [now constructor |].
    cbn [for_range]. unfold bind at 1. unfold bind at 1. rewrite Hc.
    unfold ret at 1. rewrite Hrun. cbn [map]. rewrite <- app_assoc.
    unfold advance. cbn [draws pos]. do 3 f_equal. lia.
Qed.

Lemma picked_singleton {A} (s : A) (picked : list A) :
  Forall (fun x => In x [s]) picked -> picked = repeat s (length picked).
Proof.
  induction 1 as [|x l Hx _ IH]; [reflexivity |].
  cbn [length repeat]. destruct Hx as [<- | []]. now rewrite <- IH.
Qed.

(** The run of [generate_quiz] once both counts have been read. *)
Lemma generate_quiz_counts text (counts : gmap string Z) n m st :
  counts !! "short_text" = Some n -> counts !! "multiple_choice" = Some m ->
  generate_quiz text counts st
  = (questions <-
       for_range (Z.to_nat n)
         (fun questions =>
            sentence <- choice (TextProcessor.extract_sentences text) ;;
            ret (questions ++ [short_text_question sentence]))
         [] ;;
     for_range (Z.to_nat m)
       (fun questions =>
          sentence <- choice (TextProcessor.extract_sentences text) ;;
          ret (questions ++ [multiple_choice_question sentence]))
       questions) st.
Proof.
  intros Hn Hm. unfold generate_quiz, lift, dict_getitem. rewrite Hn, Hm.
  unfold bind, ret.
  destruct (for_range (Z.to_nat n) _ [] st) as [[qs1 st1]|e]; [| reflexivity].
  now destruct (for_range (Z.to_nat m) _ qs1 st1) as [[qs2 st2]|e].
Qed.

(** X9: when the text has a sentence and both counts are given,
    [generate_quiz] returns: first one short-text question per unit of the
    short-text count, then one multiple-choice question per unit of the
    multiple-choice count, each built from a sentence of the text; a
    negative count gives no question; one draw is consumed per
    question. *)
Theorem generate_quiz_returns text (counts : gmap string Z) n m st :
  TextProcessor.extract_sentences text <> [] ->
  counts !! "short_text" = Some n -> counts !! "multiple_choice" = Some m ->
  exists picked_short picked_mc,
    length picked_short = Z.to_nat n /\ length picked_mc = Z.to_nat m
    /\ Forall (fun s => In s (TextProcessor.extract_sentences text))
              (picked_short ++ picked_mc)
    /\ generate_quiz text counts st
       = Return (map short_text_question picked_short
                   ++ map multiple_choice_question picked_mc,
                 advance st (Z.to_nat n + Z.to_nat m)).
Proof.
  intros Hne Hn Hm. rewrite (generate_quiz_counts _ _ _ _ _ Hn Hm).
  destruct (for_range_choice_run _ short_text_question Hne (Z.to_nat n) [] st)
    as (ps & Hlps & Hps & Hrs).
  destruct (for_range_choice_run _ multiple_choice_question Hne (Z.to_nat m)
              (map short_text_question ps) (advance st (Z.to_nat n)))
    as (pm & Hlpm & Hpm & Hrm).
  exists ps, pm. split; [assumption |]. split; [assumption |].
  split; [now apply Forall_app |].
  unfold bind at 1. rewrite Hrs. cbn [app]. rewrite Hrm.
  unfold advance. cbn [draws pos]. now rewrite Nat.add_assoc.
Qed.

Lemma generate_quiz_returns_witness :
  exists picked_short picked_mc,
    length picked_short = Z.to_nat 2 /\ length picked_mc = Z.to_nat 1
    /\ Forall (fun s => In s (TextProcessor.extract_sentences
                                "The sky is blue. Water is wet."))
              (picked_short ++ picked_mc)
    /\ generate_quiz "The sky is blue. Water is wet."
         {[ "short_text" := 2%Z; "multiple_choice" := 1%Z ]}
         (mkRandomState (fun n => n) 0)
       = Return (map short_text_question picked_short
                   ++ map multiple_choice_question picked_mc,
                 advance (mkRandomState (fun n => n) 0) (Z.to_nat 2 + Z.to_nat 1)).
Proof.
  apply (generate_quiz_returns "The sky is blue. Water is wet."
           {[ "short_text" := 2%Z; "multiple_choice" := 1%Z ]}
           2 1 (mkRandomState (fun n => n) 0));
    [discriminate | reflexivity | reflexivity].
Defined.

(** X10: when neither count is positive, [generate_quiz] returns no question and
    leaves the random source as it was, whatever the text. *)
Theorem generate_quiz_no_question text (counts : gmap string Z) n m st :
  counts !! "short_text" = Some n -> counts !! "multiple_choice" = Some m ->
  (n <= 0)%Z -> (m <= 0)%Z ->
  generate_quiz text counts st = Return ([], st).
Proof.
  intros Hn Hm Hn0 Hm0. rewrite (generate_quiz_counts _ _ _ _ _ Hn Hm).
  replace (Z.to_nat n) with 0%nat by lia. replace (Z.to_nat m) with 0%nat by lia.
  reflexivity.
Qed.

Lemma generate_quiz_no_question_witness :
  generate_quiz "" {[ "short_text" := 0%Z; "multiple_choice" := (-2)%Z ]}
    (mkRandomState (fun n => n) 0)
  = Return ([], mkRandomState (fun n => n) 0).
Proof.
  apply (generate_quiz_no_question ""
           {[ "short_text" := 0%Z; "multiple_choice" := (-2)%Z ]} 0 (-2));
    [reflexivity | reflexivity | lia | lia].
Defined.

(** X11: a text of one sentence leaves nothing to chance: whatever the draws,
    the result is the short-text question of that sentence, as many times
    as asked, followed by its multiple-choice question, as many times as
    asked. *)
Theorem generate_quiz_single_sentence text s (counts : gmap string Z) n m st :
  TextProcessor.extract_sentences text = [s] ->
  counts !! "short_text" = Some n -> counts !! "multiple_choice" = Some m ->
  generate_quiz text counts st
  = Return (repeat (short_text_question s) (Z.to_nat n)
              ++ repeat (multiple_choice_question s) (Z.to_nat m),
            advance st (Z.to_nat n + Z.to_nat m)).
Proof.
  intros Hs Hn Hm. rewrite (generate_quiz_counts _ _ _ _ _ Hn Hm), Hs.
  destruct (for_range_choice_run [s] short_text_question ltac:(discriminate)
              (Z.to_nat n) [] st) as (ps & Hlps & Hps & Hrs).
  destruct (for_range_choice_run [s] multiple_choice_question ltac:(discriminate)
              (Z.to_nat m) (map short_text_question ps) (advance st (Z.to_nat n)))
    as (pm & Hlpm & Hpm & Hrm).
  unfold bind at 1. rewrite Hrs. cbn [app]. rewrite Hrm.
  apply picked_singleton in Hps, Hpm. rewrite Hlps in Hps. rewrite Hlpm in Hpm.
  subst ps pm. rewrite <- !map_repeat in *.
  unfold advance. cbn [draws pos]. now rewrite Nat.add_assoc.
Qed.

Lemma generate_quiz_single_sentence_witness :
  generate_quiz "  The sky is blue.  " {[ "short_text" := 1%Z; "multiple_choice" := 2%Z ]}
    (mkRandomState (fun n => 7 * n) 3)
  = Return (repeat (short_text_question "The sky is blue") (Z.to_nat 1)
              ++ repeat (multiple_choice_question "The sky is blue") (Z.to_nat 2),
            advance (mkRandomState (fun n => 7 * n) 3) (Z.to_nat 1 + Z.to_nat 2)).
Proof.
  apply (generate_quiz_single_sentence "  The sky is blue.  " "The sky is blue"
           {[ "short_text" := 1%Z; "multiple_choice" := 2%Z ]} 1 2); reflexivity.
Defined.

(** X12: a count dictionary without the short-text key makes [generate_quiz]
    raise [KeyError] at once; one without the multiple-choice key makes it
    raise [KeyError] after the short-text questions, when these could be
    built. *)
Theorem generate_quiz_missing_key text (counts : gmap string Z) st :
  (counts !! "short_text" = None -> generate_quiz text counts st = Raise KeyError)
  /\ (forall n, counts !! "short_text" = Some n ->
        counts !! "multiple_choice" = None ->
        (n <= 0)%Z \/ TextProcessor.extract_sentences text <> [] ->
        generate_quiz text counts st = Raise KeyError).
Proof.
  split.
  - intros H. unfold generate_quiz, lift, dict_getitem, bind. now rewrite H.
  - intros n Hn Hm Hok. unfold generate_quiz, lift, dict_getitem.
    unfold bind at 1. rewrite Hn. unfold bind at 1.
    assert (Hrun : exists qs st1,
               for_range (Z.to_nat n)
                 (fun questions =>
                    sentence <- choice (TextProcessor.extract_sentences text) ;;
                    ret (questions ++ [short_text_question sentence])) [] st
               = Return (qs, st1)).
    { destruct Hok as [Hn0 | Hne].
      - replace (Z.to_nat n) with 0%nat by lia. now exists [], st.
      - destruct (for_range_choice_run _ short_text_question Hne (Z.to_nat n) [] st)
          as (ps & _ & _ & Hrs).
        eauto. }
    destruct Hrun as (qs & st1 & ->). unfold bind at 1. now rewrite Hm.
Qed.

Lemma generate_quiz_missing_key_witness :
  generate_quiz "The sky is blue." {[ "multiple_choice" := 1%Z ]}
    (mkRandomState (fun n => n) 0) = Raise KeyError
  /\ generate_quiz "The sky is blue." {[ "short_text" := 2%Z ]}
       (mkRandomState (fun n => n) 0) = Raise KeyError.
Proof.
  split.
  - apply (proj1 (generate_quiz_missing_key "The sky is blue."
                    {[ "multiple_choice" := 1%Z ]} (mkRandomState (fun n => n) 0))).
    reflexivity.
  - apply (proj2 (generate_quiz_missing_key "The sky is blue."
                    {[ "short_text" := 2%Z ]} (mkRandomState (fun n => n) 0)) 2%Z);
      [reflexivity | reflexivity | right; discriminate].
Defined.

(** X13: with the count dictionary that the page builds, [generate_quiz] never
    raises [KeyError]; it raises, and then [IndexError], exactly when the
    text has no sentence and a short-text or multiple-choice question is
    asked for.  The ordering count plays no part. *)
Theorem generate_quiz_from_page text (short_text_count mc_count ordering_count : Z) st :
  generate_quiz text (question_counts short_text_count mc_count ordering_count) st
  <> Raise KeyError
  /\ (generate_quiz text (question_counts short_text_count mc_count ordering_count) st
      = Raise IndexError
      <-> TextProcessor.extract_sentences text = []
          /\ (0 < short_text_count \/ 0 < mc_count)%Z)
  /\ ((exists e, generate_quiz text
                   (question_counts short_text_count mc_count ordering_count) st
                 = Raise e)
      -> TextProcessor.extract_sentences text = []).
Proof.
  set (counts := question_counts short_text_count mc_count ordering_count).
  assert (Hn : counts !! "short_text" = Some short_text_count) by reflexivity.
  assert (Hm : counts !! "multiple_choice" = Some mc_count) by reflexivity.
  destruct (TextProcessor.extract_sentences text) as [|s0 l] eqn:Hs.
  - assert (Hrun : generate_quiz text counts st
                   = if ((0 <? short_text_count) || (0 <? mc_count))%Z
                     then Raise IndexError else Return ([], st)).
    { destruct (0 <? short_text_count)%Z eqn:E1; cbn [orb].
      - apply Z.ltb_lt in E1. rewrite (generate_quiz_counts _ _ _ _ _ Hn Hm), Hs.
        unfold bind at 1. rewrite for_range_choice_empty by lia. reflexivity.
      - apply Z.ltb_ge in E1. destruct (0 <? mc_count)%Z eqn:E2.
        + apply Z.ltb_lt in E2. rewrite (generate_quiz_counts _ _ _ _ _ Hn Hm), Hs.
          unfold bind at 1. replace (Z.to_nat short_text_count) with 0%nat by lia.
          rewrite for_range_zero. rewrite for_range_choice_empty by lia. reflexivity.
        + apply Z.ltb_ge in E2. rewrite (generate_quiz_counts _ _ _ _ _ Hn Hm).
          replace (Z.to_nat short_text_count) with 0%nat by lia.
          replace (Z.to_nat mc_count) with 0%nat by lia. reflexivity. }
    rewrite Hrun. clear Hrun.
    destruct ((0 <? short_text_count) || (0 <? mc_count))%Z eqn:E.
    + apply orb_true_iff in E. rewrite !Z.ltb_lt in E.
      split; [discriminate |]. split; [| intros _; reflexivity].
      split; [intros _; now split | reflexivity].
    + apply orb_false_iff in E. rewrite !Z.ltb_ge in E.
      split; [discriminate |]. split; [| intros _; reflexivity].
      split; [discriminate | intros [_ H]; lia].
  - assert (Hrun : exists qs st', generate_quiz text counts st = Return (qs, st')).
    { assert (Hne : s0 :: l <> []) by discriminate.
      rewrite (generate_quiz_counts _ _ _ _ _ Hn Hm), Hs.
      destruct (for_range_choice_run _ short_text_question Hne
                  (Z.to_nat short_text_count) [] st) as (ps & _ & _ & Hrs).
      unfold bind at 1. rewrite Hrs.
      destruct (for_range_choice_run _ multiple_choice_question Hne
                  (Z.to_nat mc_count) ([] ++ map short_text_question ps)
                  (advance st (Z.to_nat short_text_count))) as (pm & _ & _ & Hrm).
      rewrite Hrm. eauto. }
    destruct Hrun as (qs & st' & ->).
    split; [discriminate |].
    split; [split; [discriminate | intros [H _]; discriminate] |].
    intros [e He]. discriminate.
Qed.

End AssemblyLaws.

(** * Laws of the exports *)

Section ExportLaws.

Import QuizGenerator StreamlitQuizApp.

(** ** Questions built by the generator *)

Lemma join_words_nonempty (l : list string) :
  l <> [] -> Forall (fun w => is_word w = true) l -> PyStr.join " " l <> "".
Proof.
  intros Hne Hl. destruct l as [|w l]; [congruence |].
  apply Forall_cons_1 in Hl as [Hw _].
  destruct w as [|c w]; [discriminate |]. now rewrite join_cons_head.
Qed.

Lemma sentence_distractor_nonempty text s :
  In s (TextProcessor.extract_sentences text) ->
  PyStr.join " " (rev (PyStr.split_ws (PyStr.lower s))) <> "".
Proof.
  intros H. apply sentence_nonblank, split_ws_nonblank in H.
  apply join_words_nonempty.
  - rewrite split_ws_lower. destruct (PyStr.split_ws s) as [|w l]; [congruence |].
    cbn [map rev]. now destruct (rev (map PyStr.lower l)).
  - apply List.Forall_rev, split_ws_words.
Qed.

(** X14: every short-text question of a result has no answer option and three
    distractors, which are one and the same non-empty string: the
    lower-cased words of its sentence in reverse order. *)
Theorem generate_quiz_short_text_distractors text counts st questions st' :
  generate_quiz text counts st = Return (questions, st') ->
  Forall (fun q => type q = "short_text" ->
                   answers q = []
                   /\ exists d, d <> "" /\ distractors q = [d; d; d]) questions.
Proof.
  intros H. apply generate_quiz_templates in H.
  eapply Forall_impl; [exact H |].
  intros q (s & Hs & [-> | ->]); [| discriminate].
  intros _. split; [reflexivity |].
  exists (PyStr.join " " (rev (PyStr.split_ws (PyStr.lower s)))).
  split; [now apply (sentence_distractor_nonempty text) |].
  cbn [distractors short_text_question]. now rewrite short_answer_repeat.
Qed.

Lemma generate_quiz_short_text_distractors_witness :
  Forall (fun q => type q = "short_text" ->
                   answers q = []
                   /\ exists d, d <> "" /\ distractors q = [d; d; d])
         [short_text_question "The sky is blue";
          multiple_choice_question "Water is wet"].
Proof.
  apply (generate_quiz_short_text_distractors "The sky is blue. Water is wet."
           {[ "short_text" := 1%Z; "multiple_choice" := 1%Z ]}
             (mkRandomState (fun n => n) 0)
           [short_text_question "The sky is blue";
            multiple_choice_question "Water is wet"]
           (mkRandomState (fun n => n) 2)).
  reflexivity.
Defined.

Lemma generated_multiple_choice_overlap_witness :
  Forall (fun q => type q = "multiple_choice" ->
                   correct_answers q = [0%Z]
                   /\ answers q !! 0%nat = Some "Accurate"
                   /\ In "Accurate" (distractors q))
         [short_text_question "The sky is blue";
          multiple_choice_question "Water is wet"].
Proof.
  apply (generated_multiple_choice_overlap "The sky is blue. Water is wet."
           {[ "short_text" := 1%Z; "multiple_choice" := 1%Z ]}
             (mkRandomState (fun n => n) 0)
           [short_text_question "The sky is blue";
            multiple_choice_question "Water is wet"]
           (mkRandomState (fun n => n) 2)).
  reflexivity.
Defined.

Lemma generated_gift_export_witness :
  export_questions [short_text_question "The sky is blue";
                    multiple_choice_question "Water is wet"] "gift"
  = Return (Some (PyStr.join nl
      (concat (first_option_blocks [short_text_question "The sky is blue";
                                    multiple_choice_question "Water is wet"]))))
  /\ length (first_option_blocks [short_text_question "The sky is blue";
                                  multiple_choice_question "Water is wet"])
     = length (List.filter is_multiple_choice
                 [short_text_question "The sky is blue";
                  multiple_choice_question "Water is wet"]).
Proof.
  apply (generated_gift_export "The sky is blue. Water is wet."
           {[ "short_text" := 1%Z; "multiple_choice" := 1%Z ]}
           (mkRandomState (fun n => n) 0)
           [short_text_question "The sky is blue";
            multiple_choice_question "Water is wet"]
           (mkRandomState (fun n => n) 2)).
  reflexivity.
Defined.

(** ** Flashcard export *)

Lemma gift_step_outcome i q acc :
  gift_step i q acc = Raise IndexError \/ exists acc', gift_step i q acc = Return acc'.
Proof.
  unfold gift_step. destruct (String.eqb (type q) "multiple_choice"); [| eauto].
  rewrite list_getitem_head. destruct (head (correct_answers q)); cbn [rbind]; eauto.
Qed.

Lemma gift_loop_raises (questions : list Question) :
  Exists (fun q => type q = "multiple_choice" /\ correct_answers q = []) questions ->
  forall i acc, gift_loop i questions acc = Raise IndexError.
Proof.
  induction 1 as [q qs [Hty Hc] | q qs _ IH]; intros i acc; cbn [gift_loop].
  - unfold gift_step. rewrite Hty, Hc. reflexivity.
  - destruct (gift_step_outcome i q acc) as [-> | [acc' ->]]; [reflexivity |].
    cbn [rbind]. apply IH.
Qed.


(** X17: a multiple-choice question without a correct option, wherever it
    stands in the list, makes the flashcard export raise [IndexError]:
    nothing is exported. *)
Theorem gift_export_missing_correct_option (questions : list Question) :
  Exists (fun q => type q = "multiple_choice" /\ correct_answers q = []) questions ->
  export_questions questions "gift" = Raise IndexError.
Proof.
  intros H. unfold export_questions. simpl String.eqb.
  now rewrite (gift_loop_raises questions H).
Qed.

Lemma gift_export_missing_correct_option_witness :
  export_questions
    [multiple_choice_question "The sky is blue";
     mkQuestion "Q" "multiple_choice" ["a"; "b"] [] [] None] "gift"
  = Raise IndexError.
Proof.
  apply gift_export_missing_correct_option.
  right; left. split; reflexivity.
Defined.

Lemma gift_loop_skips (questions : list Question) :
  Forall (fun q => type q <> "multiple_choice") questions ->
  forall i acc, gift_loop i questions acc = Return acc.
Proof.
  induction 1 as [|q qs Hq _ IH]; intros i acc; [reflexivity |].
  cbn [gift_loop]. unfold gift_step.
  apply String.eqb_neq in Hq. rewrite Hq. cbn [rbind]. apply IH.
Qed.

(** X18: when no question is a multiple-choice question, the flashcard export
    is the empty string. *)
Theorem gift_export_no_multiple_choice (questions : list Question) :
  Forall (fun q => type q <> "multiple_choice") questions ->
  export_questions questions "gift" = Return (Some "").
Proof.
  intros H. unfold export_questions. simpl String.eqb.
  now rewrite (gift_loop_skips questions H).
Qed.

Lemma gift_export_no_multiple_choice_witness :
  export_questions [short_text_question "The sky is blue";
                    short_text_question "Water is wet"] "gift"
  = Return (Some "").
Proof.
  apply gift_export_no_multiple_choice. repeat constructor; discriminate.
Defined.

(** ** Plain-text export *)

(** X19: the plain-text export never raises and depends on the text and the
    answer options of the questions only: kinds, correct options,
    distractors and metadata are not written. *)
Theorem txt_export_fields (questions questions' : list Question) :
  map txt_fields questions = map txt_fields questions' ->
  exists s,
    export_questions questions "txt" = Return (Some s)
    /\ export_questions questions' "txt" = Return (Some s).
Proof.
  intros H. unfold export_questions. simpl String.eqb. eexists. split; [reflexivity |].
  assert (E : forall qs : list Question,
             map (fun q => text q +:+ nl +:+ "Answers: " +:+ PyStr.join ", " (answers q)) qs
             = map (fun p : string * list string =>
                      fst p +:+ nl +:+ "Answers: " +:+ PyStr.join ", " (snd p))
                   (map txt_fields qs)).
  { intros qs. now rewrite map_map. }
  now rewrite !E, H.
Qed.

Lemma txt_export_fields_witness :
  exists s,
    export_questions [mkQuestion "Q" "multiple_choice" ["a"; "b"] [1%Z] ["c"] None] "txt"
    = Return (Some s)
    /\ export_questions [mkQuestion "Q" "short_text" ["a"; "b"] [0%Z] [] None] "txt"
       = Return (Some s).
Proof. apply txt_export_fields. reflexivity. Defined.

(** ** Structured-data export *)

(** X20: two lists of questions with string-keyed metadata that export to the
    same structured-data text are the same list. *)
Theorem export_json_injective (questions questions' : list Question) :
  Forall (fun q => metadata_str_keys q = true) questions ->
  Forall (fun q => metadata_str_keys q = true) questions' ->
  export_questions questions "json" = export_questions questions' "json" ->
  questions = questions'.
Proof.
  intros H H' E.
  pose proof (f_equal (fun r => match r with
                                | Return (Some s) => JsonLoads.loads_questions s
                                | _ => None
                                end) E) as E'.
  change (JsonLoads.loads_questions (dumps (PList (map to_dict questions)))
          = JsonLoads.loads_questions (dumps (PList (map to_dict questions')))) in E'.
  rewrite !loads_questions_dumps in E' by assumption. now injection E'.
Qed.

Lemma export_json_injective_witness : gift_scenario = gift_scenario.
Proof.
  apply (export_json_injective gift_scenario gift_scenario);
    [repeat constructor | repeat constructor | reflexivity].
Defined.

Lemma printable_app a b :
  all_printable (a +:+ b) = all_printable a && all_printable b.
Proof.
  induction a as [|c a IH]; [reflexivity |].
  cbn [String.append all_printable]. now rewrite IH, andb_assoc.
Qed.

Lemma printable_escape_char c : all_printable (escape_char c) = true.
Proof. destruct c as [[|] [|] [|] [|] [|] [|] [|] [|]]; reflexivity. Qed.

Lemma printable_escape s : all_printable (escape s) = true.
Proof.
  induction s as [|c s IH]; [reflexivity |].
  cbn [escape]. now rewrite printable_app, printable_escape_char, IH.
Qed.

Lemma printable_dumps_str s : all_printable (dumps_str s) = true.
Proof.
  unfold dumps_str. cbn [all_printable]. rewrite printable_app, printable_escape.
  reflexivity.
Qed.

Lemma printable_uint u : all_printable (NilEmpty.string_of_uint u) = true.
Proof. induction u; cbn [NilEmpty.string_of_uint all_printable]; auto. Qed.

Lemma printable_str_of_int n : all_printable (PyStr.str_of_int n) = true.
Proof.
  unfold PyStr.str_of_int.
  assert (H : forall u, all_printable (NilZero.string_of_uint u) = true).
  { intros u. unfold NilZero.string_of_uint. destruct u; try apply printable_uint.
    reflexivity. }
  destruct (Z.to_int n); cbn [NilZero.string_of_int all_printable]; now rewrite ?H.
Qed.

Lemma printable_join (l : list string) :
  Forall (fun s => all_printable s = true) l ->
  all_printable (PyStr.join ", " l) = true.
Proof.
  induction 1 as [|x l Hx Hl IH]; [reflexivity |].
  destruct l as [|y l]; [exact Hx |].
  rewrite join_two, !printable_app, Hx, IH. reflexivity.
Qed.

Lemma printable_dumps_key k : all_printable (dumps_key k) = true.
Proof. destruct k; apply printable_dumps_str. Qed.

Lemma printable_dumps (v : pyval) : all_printable (dumps v) = true.
Proof.
  induction v as [ | n | s | l IH | d IH ] using pyval_nested_ind.
  - reflexivity.
  - apply printable_str_of_int.
  - apply printable_dumps_str.
  - cbn [dumps]. cbn [String.append all_printable]. rewrite printable_app.
    rewrite printable_join; [reflexivity |]. now apply Forall_map.
  - cbn [dumps]. cbn [String.append all_printable]. rewrite printable_app.
    rewrite printable_join; [reflexivity |]. apply Forall_map.
    eapply Forall_impl; [exact IH |]. intros [k x] Hx. cbv beta in *. cbn [fst snd] in *.
    rewrite printable_app, printable_dumps_key. cbn [all_printable]. now rewrite Hx.
Qed.

(** X21: the structured-data export never raises, and its text is made of
    printable ASCII characters only: every other character of a question
    is written as an escape, so the text has no line break. *)
Theorem export_json_printable (questions : list Question) :
  exists s,
    export_questions questions "json" = Return (Some s) /\ all_printable s = true.
Proof.
  eexists. split; [reflexivity |]. apply printable_dumps.
Qed.

(** ** Formats offered by the page *)



End ExportLaws.
